(** * turborepo-shadcn-ui: the programs of the repository and their properties

    The repository is a Turborepo workspace: a Storybook configuration, two
    [Page] components of the docs app, the site configuration [DATA] of the
    portfolio app, and Markdown articles.  Three of the articles carry
    TypeScript programs (a click-tracking API route, the dynamic
    call-to-action component, a cached autocomplete handler).

    Part I embeds these programs and documents, a module for each.
    Part II states and proves their properties. *)

From Stdlib Require Import ZArith Lia Bool List String Ascii.
From stdpp Require Import base option strings list gmap.

Set Warnings "-register-all".

Local Open Scope string_scope.
Local Open Scope list_scope.

(* ===================================================================== *)
(** * Part I: the model *)
(* ===================================================================== *)

(** The double quote, for the strings of the sources that hold one. *)
Definition dq : string := String (ascii_of_nat 34) EmptyString.

(** ** JavaScript values, exceptions and JSON *)

Module Js.

(** The exceptions the sources can raise; [Error] also covers the rejections
    of external services (database client, fetch). *)
Inductive Exception : Type :=
| TypeError (message : string)
| SyntaxError (message : string)
| ReferenceError (message : string)
| Error (message : string).

(** How the evaluation of an expression, or the wait on a promise, ends:
    with a value, or with a thrown exception (a rejected promise). *)
Inductive completion (A : Type) : Type :=
| Normal (value : A)
| Throw (exn : Exception).
Arguments Normal {A} value.
Arguments Throw {A} exn.

Definition bind {A B : Type} (c : completion A) (k : A -> completion B) : completion B :=
  match c with
  | Normal a => k a
  | Throw e => Throw e
  end.

Definition returns {A : Type} (c : completion A) : bool :=
  match c with
  | Normal _ => true
  | Throw _ => false
  end.

(** Numbers: the finite ones are represented by integers (all the sources do
    with a number is to store, serialise and test it); the three values
    that are not finite are kept apart, since JSON cannot write them. *)
Inductive Number : Type :=
| Finite (z : Z)
| NaN
| PosInfinity
| NegInfinity.

(** Values of type [any].  The members of an object are listed in
    enumeration order. *)
Inductive Value : Type :=
| Undefined
| Null
| Boolean (b : bool)
| Num (n : Number)
| Str (s : string)
| Array (items : list Value)
| Object (members : list (string * Value)).

(** ToBoolean: what [if (v)] and [!v] look at. *)
Definition truthy (v : Value) : bool :=
  match v with
  | Undefined | Null => false
  | Boolean b => b
  | Num (Finite z) => negb (z =? 0)%Z
  | Num NaN => false
  | Num _ => true
  | Str s => negb (String.eqb s "")
  | Array _ | Object _ => true
  end.

Fixpoint lookup_member (k : string) (members : list (string * Value)) : Value :=
  match members with
  | [] => Undefined
  | (k', v) :: rest => if String.eqb k k' then v else lookup_member k rest
  end.

(** [v.k], for a name [k] that is no built-in property of strings, arrays or
    numbers (the sources read [version] only): reading a property of
    [null] or [undefined] throws, a missing one is [undefined]. *)
Definition get_property (v : Value) (k : string) : completion Value :=
  match v with
  | Undefined => Throw (TypeError "Cannot destructure property of undefined")
  | Null => Throw (TypeError "Cannot destructure property of null")
  | Object members => Normal (lookup_member k members)
  | _ => Normal Undefined
  end.

(** A JSON text, read up to white space: the value it denotes. *)
Inductive Json : Type :=
| JNull
| JBool (b : bool)
| JNumber (z : Z)
| JString (s : string)
| JArray (items : list Json)
| JObject (members : list (string * Json)).

(** A string as the sources pass it to [JSON.parse] or get it from
    [JSON.stringify]: a JSON text, or a string that is not one (the empty
    string among them). *)
Inductive Text : Type :=
| JsonText (j : Json)
| Raw (s : string).

(** A string is truthy unless it is empty; a JSON text has at least one
    character. *)
Definition truthy_text (t : Text) : bool :=
  match t with
  | JsonText _ => true
  | Raw s => negb (String.eqb s "")
  end.

(** SerializeJSONProperty: [None] is the result [undefined].  An array
    element that has no JSON form is written [null], an object member that
    has none is left out, and a number that is not finite is written
    [null]. *)
Fixpoint serialize (v : Value) : option Json :=
  match v with
  | Undefined => None
  | Null => Some JNull
  | Boolean b => Some (JBool b)
  | Num (Finite z) => Some (JNumber z)
  | Num _ => Some JNull
  | Str s => Some (JString s)
  | Array items =>
      Some (JArray (List.map (fun x => default JNull (serialize x)) items))
  | Object members =>
      Some (JObject (omap (fun member => match serialize (snd member) with
                                         | Some j => Some (fst member, j)
                                         | None => None
                                         end) members))
  end.

(** [JSON.stringify(v)]: a string, or [undefined].  The values on which
    it throws (a BigInt, a cyclic object) are no values of this model. *)
Definition JSON_stringify (v : Value) : option Text :=
  match serialize v with
  | Some j => Some (JsonText j)
  | None => None
  end.

(** CreateDataProperty on the object under construction: a key that is
    already there keeps its place and takes the new value. *)
Fixpoint define_member (k : string) (v : Value) (members : list (string * Value))
  : list (string * Value) :=
  match members with
  | [] => [(k, v)]
  | (k', v') :: rest =>
      if String.eqb k k' then (k, v) :: rest else (k', v') :: define_member k v rest
  end.

(** The value a JSON text denotes (no reviver). *)
Fixpoint revive (j : Json) : Value :=
  match j with
  | JNull => Null
  | JBool b => Boolean b
  | JNumber z => Num (Finite z)
  | JString s => Str s
  | JArray items => Array (List.map revive items)
  | JObject members =>
      Object (fold_left (fun object member =>
                           define_member (fst member) (revive (snd member)) object)
                members [])
  end.

(** [JSON.parse(t)]. *)
Definition JSON_parse (t : Text) : completion Value :=
  match t with
  | JsonText j => Normal (revive j)
  | Raw _ => Throw (SyntaxError "Unexpected token in JSON")
  end.

(** ToString of an argument that should have been a string. *)
Definition to_text (t : option Text) : Text :=
  match t with
  | Some t => t
  | None => Raw "undefined"
  end.

(** Plain JSON data: built from [null], booleans, finite numbers, strings,
    arrays and objects, no member or element [undefined], no key twice. *)
Fixpoint plain (v : Value) : bool :=
  match v with
  | Undefined => false
  | Null | Boolean _ | Str _ => true
  | Num (Finite _) => true
  | Num _ => false
  | Array items => forallb plain items
  | Object members =>
      forallb (fun member => plain (snd member)) members
      && bool_decide (NoDup (List.map fst members))
  end.

End Js.

(** ** JSX element trees *)

Module Jsx.

(** The type of an element: a host tag, or a component (a function the
    renderer calls later). *)
Inductive ElementType : Type :=
| Intrinsic (tag : string)
| Component (name : string).

(** A prop is a string, or a closure that calls [callee] on [args]. *)
Inductive PropValue : Type :=
| PString (s : string)
| PCallback (callee : string) (args : list string).

Definition Props : Type := list (string * PropValue).

(** An element as [jsx(type, props)] builds it, children apart. *)
Inductive Element : Type :=
| element (type : ElementType) (props : Props) (children : list Node)
with Node : Type :=
| Text (s : string)
| Child (e : Element).

Definition element_type (e : Element) : ElementType :=
  match e with element t _ _ => t end.

(** Every string of the tree: its text nodes and its string props (the
    arguments of callbacks too), in document order. *)
Fixpoint strings_of (e : Element) : list string :=
  match e with
  | element _ props children =>
      flat_map (fun p => match snd p with
                         | PString s => [s]
                         | PCallback _ args => args
                         end) props
      ++ flat_map (fun n => match n with
                            | Text s => [s]
                            | Child c => strings_of c
                            end) children
  end.

(** The text the tree shows: its text nodes, concatenated. *)
Fixpoint text_content (e : Element) : string :=
  match e with
  | element _ _ children =>
      fold_right (fun n acc => match n with
                               | Text s => s +:+ acc
                               | Child c => text_content c +:+ acc
                               end) "" children
  end.

(** The components the tree mentions, in document order. *)
Fixpoint components_of (e : Element) : list string :=
  match e with
  | element t _ children =>
      match t with
      | Component name => [name]
      | Intrinsic _ => []
      end
      ++ flat_map (fun n => match n with
                            | Text _ => []
                            | Child c => components_of c
                            end) children
  end.

End Jsx.

(** ** The article on dynamic component selection (apps/stories/Button.jsx,
       second document) *)

(** Step 1: the schema, and the database the EdgeDB client talks to. *)
Module EdgeDB.
Import Js.

(** [type ButtonClick { required version -> str; required timestamp -> datetime }] *)
Record ButtonClick : Type := {
  version : string;
  timestamp : Z
}.

(** The state behind [createClient()]: the stored objects, the server's
    clock, and whether a query reaches the server at all. *)
Record Database : Type := {
  ButtonClicks : list ButtonClick;
  clock : Z;
  reachable : bool
}.

(** [e.count(e.ButtonClick.filter(click => e.op(click.version, '=', name)))] *)
Definition count_version (name : string) (db : Database) : nat :=
  List.length (List.filter (fun click => String.eqb (version click) name) (ButtonClicks db)).

(** [e.insert(e.ButtonClick, { version: v, timestamp: e.datetime_current() }).run(client)]:
    [version] is a required [str], so a value that is no string is refused
    when the query is built; a server that cannot be reached rejects. *)
Definition insert_ButtonClick (v : Value) (db : Database) : completion Database :=
  match v with
  | Str s =>
      if reachable db
      then Normal {| ButtonClicks := ButtonClicks db ++ [{| version := s; timestamp := clock db |}];
                     clock := clock db;
                     reachable := reachable db |}
      else Throw (Error "ClientConnectionError")
  | _ => Throw (Error "InvalidValueError: version expects a string")
  end.

End EdgeDB.

(** Step 2: [app/api/trackClick/route.ts]. *)
Module TrackClickRoute.
Import Js EdgeDB.

Record Request : Type := {
  body : Text
}.

(** [NextResponse.json(data, { status })] *)
Record NextResponse : Type := {
  status : Z;
  data : Value
}.

Definition Console : Type := list (string * Exception).

Definition request_json (request : Request) : completion Value :=
  JSON_parse (body request).

(** [const { version } = await request.json();], the statement before the
    [try] block. *)
Definition read_version (request : Request) : completion Value :=
  bind (request_json request) (fun parsed => get_property parsed "version").

Section Route.

(** The insert query run on the client: a call into the EdgeDB library. *)
Variable run_insert : Value -> Database -> completion Database.

Definition POST (request : Request) (db : Database) (console : Console)
  : completion NextResponse * Database * Console :=
  match read_version request with
  | Throw e => (Throw e, db, console)
  | Normal version =>
      (* try *)
      match run_insert version db with
      | Normal db' =>
          (Normal {| status := 200; data := Object [("message", Str "Click tracked")] |},
           db', console)
      | Throw error =>
          (* catch (error) *)
          (Normal {| status := 500; data := Object [("message", Str "Error tracking click")] |},
           db, console ++ [("Error tracking click:", error)])
      end
  end.

(** The insert of a call to [POST] succeeds: the handler reached it and the
    query ran. *)
Definition insert_succeeds (request : Request) (db : Database) : Prop :=
  exists version db', read_version request = Normal version
                      /\ run_insert version db = Normal db'.

(** The insert of a call to [POST] throws. *)
Definition insert_throws (request : Request) (db : Database) : Prop :=
  exists version error, read_version request = Normal version
                        /\ run_insert version db = Throw error.

End Route.

Definition click_tracked : NextResponse :=
  {| status := 200; data := Object [("message", Str "Click tracked")] |}.

Definition error_tracking_click : NextResponse :=
  {| status := 500; data := Object [("message", Str "Error tracking click")] |}.

End TrackClickRoute.

(** The query builder the article imports as [e] (dbschema/edgeql-js), as
    far as [DynamicCTA.tsx] calls it. *)
Module QueryBuilder.
Import Js.

(** The members of the expression [e.ButtonClick]: the pointers of the
    object type and the methods the builder gives every expression.  A
    filter is a key of the shape passed to [e.select]; the expression has
    no member [filter]. *)
Definition ButtonClick_members : list string :=
  [ "id"; "version"; "timestamp"; "__type__";
    "is"; "assert_single"; "run"; "runJSON"; "toEdgeQL" ].

(** [object.member(...)]: calling a member the object does not have
    throws. *)
Definition call_member (object : string) (members : list string) (member : string)
  : completion unit :=
  if existsb (String.eqb member) members
  then Normal tt
  else Throw (TypeError (object +:+ "." +:+ member +:+ " is not a function")).

End QueryBuilder.

(** Step 3: [app/components/DynamicCTA.tsx]. *)
Module DynamicCTA.
Import Js Jsx EdgeDB QueryBuilder.

(** [type ButtonVersion = 'A' | 'B']: a string at run time. *)
Definition ButtonVersion : Type := string.

(** What [cache] of React keeps for the request being rendered: nothing yet,
    or the outcome of the first call. *)
Definition RequestCache : Type := option (completion ButtonVersion).

(** What the query of the article is written to compute, were it built and
    run on the client: 'A' when the count of the clicks of version 'A' is
    greater than that of version 'B', 'B' otherwise. *)
Definition intended_result (db : Database) : completion ButtonVersion :=
  if reachable db
  then Normal (if (count_version "B" db <? count_version "A" db)%nat then "A" else "B")
  else Throw (Error "ClientConnectionError").

(** The [await e.select(...).run(client)] of [getBestPerformingButton].
    The arguments of a call are evaluated before the call, so the first
    call made is the innermost one, [e.ButtonClick.filter(...)], the
    argument of the first [e.count]: the query is built, and run, only if
    that call returns. *)
Definition select_best (db : Database) : completion ButtonVersion :=
  bind (call_member "e.ButtonClick" ButtonClick_members "filter")
       (fun _ => intended_result db).

Definition getBestPerformingButton (memo : RequestCache) (db : Database)
  : completion ButtonVersion * RequestCache :=
  match memo with
  | Some outcome => (outcome, memo)
  | None => let outcome := select_best db in (outcome, Some outcome)
  end.

(** [<CTAButton version=... />] as [DynamicCTA] writes it. *)
Definition CTAButton_element (version : ButtonVersion) : Element :=
  element (Component "CTAButton") [("version", PString version)] [].

Definition DynamicCTA (memo : RequestCache) (db : Database)
  : completion Element * RequestCache :=
  let '(awaited, memo') := getBestPerformingButton memo db in
  (bind awaited (fun bestButton =>
     Normal (element (Intrinsic "div") []
               [Child (if String.eqb bestButton "A"
                       then CTAButton_element "A"
                       else CTAButton_element "B")])),
   memo').

(** The function component [CTAButton]. *)
Definition CTAButton (version : ButtonVersion) : Element :=
  element (Intrinsic "button")
    [("onClick", PCallback "trackClick" [version]);
     ("aria-label", PString ("Buy now - Version " +:+ version))]
    [Text "Buy Now (Version "; Text version; Text ")"].

(** The request [trackClick(version)] sends to [/api/trackClick]. *)
Definition trackClick (version : ButtonVersion) : TrackClickRoute.Request :=
  {| TrackClickRoute.body := to_text (JSON_stringify (Object [("version", Str version)])) |}.

End DynamicCTA.

(** ** The article on the autocomplete cache (src/unnamed/part_002) *)

Module Autocomplete.
Import Js.

(** An entry of the KV namespace: the stored string and the [expirationTtl]
    (seconds) it was put with, if any. *)
Record KvEntry : Type := {
  value : Text;
  expirationTtl : option Z
}.

(** The bindings of [env] that hold data: the KV namespace, and the store of
    the object [env.DURABLE_OBJECT.get('autocomplete-data')]. *)
Record Env : Type := {
  KV_NAMESPACE : gmap string KvEntry;
  DURABLE_OBJECT : gmap string Value
}.

(** What [fetch] resolves to, as far as the sources read it. *)
Record Response : Type := {
  ok : bool;
  statusText : string;
  json : completion Value
}.

Section Worker.

(** The services outside the worker (the Workers AI endpoint, the SQL
    engine behind [env.D2_NAMESPACE]) answer from a state of their own,
    which a call may change; nothing is assumed about them. *)
Variable World : Type.
Variable fetch : string -> Text -> World -> completion Response * World.
Variable d2_query : Value -> World -> completion Value * World.

(** An asynchronous function of the worker: it reads and writes the stores
    and the outside world, and resolves or rejects.  What it wrote before a
    rejection stays written. *)
Definition Async (A : Type) : Type := Env * World -> completion A * (Env * World).

Definition ret {A : Type} (a : A) : Async A := fun s => (Normal a, s).

Definition throw {A : Type} (e : Exception) : Async A := fun s => (Throw e, s).

Definition await {A B : Type} (c : Async A) (k : A -> Async B) : Async B :=
  fun s => match c s with
           | (Normal a, s') => k a s'
           | (Throw e, s') => (Throw e, s')
           end.

Definition lift {A : Type} (c : completion A) : Async A := fun s => (c, s).

Notation "'let*' x ':=' c 'in' k" := (await c (fun x => k))
  (at level 10, x name, c at level 100, k at level 200).

(** [env.KV_NAMESPACE.get(key)]: the stored string, or [null].  Time does
    not pass in this model: an entry is read before it expires.  The
    operations of the namespace are modelled on the keys it accepts (it
    refuses the empty key, "." and ".."). *)
Definition kv_get (key : string) : Async (option Text) :=
  fun s => (Normal (value <$> KV_NAMESPACE (fst s) !! key), s).

(** [env.KV_NAMESPACE.put(key, text, { expirationTtl: ttl })] *)
Definition kv_put (key : string) (text : Text) (ttl : Z) : Async unit :=
  fun s => (Normal tt,
            ({| KV_NAMESPACE := <[key := {| value := text; expirationTtl := Some ttl |}]>
                                  (KV_NAMESPACE (fst s));
                DURABLE_OBJECT := DURABLE_OBJECT (fst s) |},
             snd s)).

(** [d2Object.get(key)]: the stored value, or [undefined]. *)
Definition d2_get (key : string) : Async Value :=
  fun s => (Normal (default Undefined (DURABLE_OBJECT (fst s) !! key)), s).

(** [d2Object.put(key, v)] *)
Definition d2_put (key : string) (v : Value) : Async unit :=
  fun s => (Normal tt,
            ({| KV_NAMESPACE := KV_NAMESPACE (fst s);
                DURABLE_OBJECT := <[key := v]> (DURABLE_OBJECT (fst s)) |},
             snd s)).

Definition outside {A : Type} (call : World -> completion A * World) : Async A :=
  fun s => let '(r, w) := call (snd s) in (r, (fst s, w)).

(** workers-ai.ts *)
Definition performNLPToSQLConversion (userQuery : string) : Async Value :=
  let* response := outside (fetch "https://<workers-ai-endpoint>/convert"
                              (to_text (JSON_stringify (Object [("query", Str userQuery)])))) in
  if negb (ok response)
  then throw (Error ("Failed to convert query: " +:+ statusText response))
  else
    let* data := lift (json response) in
    lift (get_property data "sqlQuery").

Definition executeSQLQueryOnD2 (sqlQuery : Value) : Async Value :=
  let* results := outside (d2_query sqlQuery) in
  ret results.

(** The statements of [handleAutocompleteRequest] after the KV check. *)
Definition fallback_to_D2 (query : string) : Async Value :=
  (* Fallback to D2 if not found in KV *)
  let* results := d2_get query in
  (* If not found in D2, generate SQL, execute, and cache *)
  let* results :=
    (if negb (truthy results)
     then
       let* sqlQuery := performNLPToSQLConversion query in
       let* results := executeSQLQueryOnD2 sqlQuery in
       let* _ := d2_put query results in
       ret results
     else ret results) in
  (* Cache in KV for future requests *)
  let* _ := kv_put query (to_text (JSON_stringify results)) 60 in
  ret results.

Definition handleAutocompleteRequest (query : string) : Async Value :=
  (* Check KV cache first *)
  let* kvResult := kv_get query in
  match kvResult with
  | Some text =>
      (* if (kvResult): a string is truthy unless empty *)
      if truthy_text text then lift (JSON_parse text) else fallback_to_D2 query
  | None => fallback_to_D2 query
  end.

(** The call was answered from the KV entry of [query]: the entry is there
    and truthy, the answer is its parse, and neither the stores nor the
    outside world were touched. *)
Definition served_from_kv (query : string) (s : Env * World)
    (outcome : completion Value * (Env * World)) : Prop :=
  exists entry, KV_NAMESPACE (fst s) !! query = Some entry
                /\ truthy_text (value entry) = true
                /\ outcome = (JSON_parse (value entry), s).

End Worker.

End Autocomplete.

(** ** The Storybook configuration (apps/.storybook/main.js) *)

Module Storybook.
Import Js.

Definition is_slash (c : ascii) : bool := Ascii.eqb c "/".

(** [join(a, b)] of node:path, for two segments that need no normalisation
    (no empty, "." or ".." component, no slash at either end of the seam). *)
Definition join (a b : string) : string := a +:+ "/" +:+ b.

(** The loop of [dirname]: from index [i] down to 1, the index of the slash
    that ends the directory part, if there is one. *)
Fixpoint dirname_end (path : list ascii) (i : nat) (matchedSlash : bool) : option nat :=
  match i with
  | O => None
  | S i' =>
      if is_slash (nth i path "/"%char)
      then (if matchedSlash then dirname_end path i' matchedSlash else Some i)
      else dirname_end path i' false
  end.

(** [dirname(path)] of node:path (POSIX). *)
Definition dirname (path : string) : string :=
  let chars := list_ascii_of_string path in
  match chars with
  | [] => "."
  | first :: _ =>
      let hasRoot := is_slash first in
      match dirname_end chars (List.length chars - 1) true with
      | None => if hasRoot then "/" else "."
      | Some e =>
          if hasRoot && (e =? 1)%nat then "//"
          else string_of_list_ascii (firstn e chars)
      end
  end.

Record Framework : Type := {
  name : string;
  options : list (string * string)
}.

Record Docs : Type := {
  autodocs : string
}.

(** The exported object, without [webpackFinal] (a function no one calls
    while the object is built). *)
Record StorybookConfig : Type := {
  stories : list string;
  addons : list string;
  framework : Framework;
  docs : Docs
}.

Section Main.

(** [require.resolve]: the file a module path resolves to in the
    installation at hand, or a MODULE_NOT_FOUND error. *)
Variable require_resolve : string -> completion string.

(** This function is used to resolve the absolute path of a package. *)
Definition getAbsolutePath (value : string) : completion string :=
  bind (require_resolve (join value "package.json")) (fun file => Normal (dirname file)).

(** The object literal of [const config], its elements evaluated in order. *)
Definition config : completion StorybookConfig :=
  bind (getAbsolutePath "@storybook/addon-onboarding") (fun onboarding =>
  bind (getAbsolutePath "@storybook/addon-links") (fun links =>
  bind (getAbsolutePath "@storybook/addon-essentials") (fun essentials =>
  bind (getAbsolutePath "@chromatic-com/storybook") (fun chromatic =>
  bind (getAbsolutePath "@storybook/addon-interactions") (fun interactions =>
  Normal
    {| stories := [ "../stories/**/*.mdx";
                    "../stories/**/*.stories.@(js|jsx|mjs|ts|tsx)";
                    "../../packages/ui/src/components/**/*.stories.@(js|jsx|mjs|ts|tsx)" ];
       addons := [ onboarding; links; essentials; chromatic; interactions ];
       framework := {| name := "@storybook/nextjs"; options := [] |};
       docs := {| autodocs := "tag" |} |}))))).

End Main.


End Storybook.

(** ** The pages of the docs app *)

(** apps/docs/app/page.tsx *)
Module DocsPage.
Import Js Jsx.

(** The bindings the module imports, each with the module it comes from. *)
Definition imports : list (string * string) :=
  [ ("Button", "@repo/ui/components/ui/button");
    ("Input", "@repo/ui/components/ui/input");
    ("Label", "@repo/ui/components/ui/label");
    ("ToastDemo", "@repo/ui/components/demo/toastDemo");
    ("NeonGradientCard", "@repo/ui/components/magicui/neon-gradient-card");
    ("RainbowButton", "@repo/ui/components/magicui/rainbow-button");
    ("RetroGridDemo", "../components/retrogrid") ].

(** [Page] declares no parameter; [props] is whatever the caller passes. *)
Definition Page (props : Props) : completion Element :=
  Normal
    (element (Intrinsic "main") [("className", PString "flex min-h-screen flex-col  p-24")]
      [Child (element (Intrinsic "div") [("className", PString "flex flex-col gap-y-2")]
        [ Child (element (Intrinsic "h1") [("className", PString "text-4xl font-bold")]
                   [Text "Docs"]);
          Child (element (Intrinsic "div") [("className", PString "flex flex-col m-9")]
                   [Child (element (Component "RainbowButton") [] [Text "Get Unlimited Access"])]);
          Child (element (Component "Button") [] [Text "Click me"]);
          Child (element (Component "Label") [] [Text "Email"]);
          Child (element (Component "Input")
                   [("type", PString "email"); ("placeholder", PString "Email")] []);
          Child (element (Component "Button") [] [Text "Submit"]);
          Child (element (Component "ToastDemo") [] []);
          Child (element (Component "NeonGradientCard")
                   [("className", PString "max-w-sm items-center justify-center text-center")]
                   [Child (element (Intrinsic "span")
                      [("className",
                        PString ("pointer-events-none z-10 h-full whitespace-pre-wrap "
                                 +:+ "bg-gradient-to-br from-[#ff2975] from-35% to-[#00FFF1] "
                                 +:+ "bg-clip-text text-center text-6xl font-bold leading-none "
                                 +:+ "tracking-tighter text-transparent "
                                 +:+ "dark:drop-shadow-[0_5px_5px_rgba(0,0,0,0.8)]"))]
                      [Text "Neon Gradient Card"])]);
          Child (element (Component "RetroGridDemo") [] []) ])]).

End DocsPage.

(** src/unnamed/part_001: the page that shows the charts. *)
Module ChartsPage.
Import Js Jsx.

Definition imports : list (string * string) :=
  [ ("Charts", "@repo/ui/components/demo/blockDemo") ].

Definition Page (props : Props) : completion Element :=
  Normal
    (element (Intrinsic "main")
      [("className", PString "flex min-h-screen flex-col items-center justify-between p-24")]
      [Child (element (Intrinsic "div") [("className", PString "flex flex-col gap-y-2")]
        [ Child (element (Intrinsic "h1") [("className", PString "text-4xl font-bold")]
                   [Text "Docs"]);
          Child (element (Component "Charts") [] []) ])]).

End ChartsPage.

(** The page components among the sources, with their imports. *)
Module DocsApp.
Import Js Jsx.

Record PageModule : Type := {
  source : string;
  imports : list (string * string);
  Page : Props -> completion Element
}.

Definition pages : list PageModule :=
  [ {| source := "apps/docs/app/page.tsx";
       imports := DocsPage.imports;
       Page := DocsPage.Page |};
    {| source := "unnamed/part_001";
       imports := ChartsPage.imports;
       Page := ChartsPage.Page |} ].

End DocsApp.

(** ** The site configuration of the portfolio app (the TypeScript module
       that follows the article in
       apps/portfolio/content/Design-Systems-Turborepo-and-Git-Submodules.mdx) *)

Module SiteConfig.
Import Jsx.

(** Icons are bindings imported from lucide-react and from the [Icons]
    object of the components; a field holds the name of the binding. *)
Module NavItem.
Record t : Type := { href : string; icon : string; label : string }.
End NavItem.

Module Social.
Record t : Type := { name : string; url : string; icon : string; navbar : bool }.
End Social.

(** [social] is an object: its members in the order written. *)
Module Contact.
Record t : Type := { email : string; tel : string; social : list (string * Social.t) }.
End Contact.

Module Work.
Record t : Type := {
  company : string;
  href : string;
  badges : list string;
  location : string;
  title : string;
  logoUrl : string;
  start : string;
  end_ : string;
  description : string
}.
End Work.

Module Education.
Record t : Type := {
  school : string;
  href : string;
  degree : string;
  logoUrl : string;
  start : string;
  end_ : string
}.
End Education.

Module Link.
Record t : Type := { type_ : string; href : string; icon : Element }.
End Link.

Module Project.
Record t : Type := {
  title : string;
  href : string;
  dates : string;
  active : bool;
  description : string;
  technologies : list string;
  links : list Link.t;
  image : string;
  video : string
}.
End Project.

Module Hackathon.
Record t : Type := {
  title : string;
  dates : string;
  location : string;
  description : string;
  image : string;
  mlh : string;
  links : list Link.t
}.
End Hackathon.

Record Profile : Type := {
  name : string;
  initials : string;
  url : string;
  location : string;
  locationLink : string;
  description : string;
  summary : string;
  avatarUrl : string;
  skills : list string;
  navbar : list NavItem.t;
  contact : Contact.t;
  work : list Work.t;
  education : list Education.t;
  projects : list Project.t;
  hackathons : list Hackathon.t
}.

(** [export const DATA = { ... } as const;] *)
Definition DATA : Profile :=
{| name := ("Stew " +:+ dq +:+ "Stin" +:+ dq +:+ " Milne");
     initials := "SM";
     url := "https://stewmilne.id.au";
     location := "Melbourne Australia";
     locationLink := "https://www.google.com/maps/place/melbourne";
     description := ("Consultant, UI Engineer and full-stack developer working "
                   +:+ "with ReactJS, NextJS AstroJS, NodeJS. ");
     summary := " Hello I am very clever";
     avatarUrl := "/me.png";
     skills := [ "React";
               "Next.js";
               "Typescript";
               "Node.js";
               "Hono.js";
               "EdgeDB";
               "Postgres";
               "Cloudflare Pages and Workers";
               "Cloudflare Developer Platform";
               "Magic UI";
               "Tailwind CSS";
               "Shadcn/ui";
               "Astro.js";
               "MapBox";
               "Storybook";
               "Design systems";
               "DNS";
               "Information architecture" ];
     navbar := [ {| NavItem.href := "/";
                  NavItem.icon := "HomeIcon";
                  NavItem.label := "Home" |};
               {| NavItem.href := "/blog";
                  NavItem.icon := "NotebookIcon";
                  NavItem.label := "Blog" |} ];
     contact := {| Contact.email := "stemil23@gmail.com";
                 Contact.tel := "+610490100028";
                 Contact.social := [ ("GitHub", {| Social.name := "GitHub";
                                       Social.url := "https://github.com/stemil23";
                                       Social.icon := "Icons.github";
                                       Social.navbar := true |});
                                  ("LinkedIn", {| Social.name := "LinkedIn";
                                       Social.url := ("https://www.linkedin.com/in/stewartmilne/");
                                       Social.icon := "Icons.linkedin";
                                       Social.navbar := true |});
                                  ("email", {| Social.name := "Send Email";
                                       Social.url := "#";
                                       Social.icon := "Icons.email";
                                       Social.navbar := false |}) ] |};
     work := [ {| Work.company := "Metabureau";
                Work.href := "https://metabureau.com.au";
                Work.badges := [];
                Work.location := "Remote";
                Work.title := "Consultant and Developer";
                Work.logoUrl := "/atomic.png";
                Work.start := "February 2009";
                Work.end_ := "June 2022";
                Work.description := ("Design, development and general consulting "
                                  +:+ "services. Drupal development, maintenance and "
                                  +:+ "hosting. DNS and email configuration and "
                                  +:+ "support. Load testing of applications.") |};
             {| Work.company := "Miscellaneous Freelance";
                Work.badges := [];
                Work.href := "https://shopify.com";
                Work.location := "Remote";
                Work.title := "Web Developr";
                Work.logoUrl := "/shopify.svg";
                Work.start := "August 2013";
                Work.end_ := "December 2019";
                Work.description := ("Freelance web designer and developer for "
                                  +:+ "variosu businesses and agencies.") |};
             {| Work.company := "Integrativ";
                Work.badges := [];
                Work.href := "https://shopify.com";
                Work.location := "Remote";
                Work.title := "Senior Consulatnt";
                Work.logoUrl := "/shopify.svg";
                Work.start := "August 2022";
                Work.end_ := "December 2023";
                Work.description := ("General support and development tasks "
                                  +:+ "primarily related to iMIS member-based "
                                  +:+ "association management software. Database "
                                  +:+ "manageent, payment processing, analusis, "
                                  +:+ "designa nd solution development.") |};
             {| Work.company := "REOP Ventures";
                Work.href := "https://reop.com.au";
                Work.badges := [];
                Work.location := "Santa Clara, CA";
                Work.title := "Software Engineer";
                Work.logoUrl := "/nvidia.png";
                Work.start := "January 2020";
                Work.end_ := "April 2020";
                Work.description := ("REOp (Real Estate: Offmarket & Premarket) was "
                                  +:+ "a startup using DrupalCMS as a development "
                                  +:+ "platform to real estate marketing.") |};
             {| Work.company := "IE";
                Work.href := "https://ie.com.au";
                Work.badges := [];
                Work.location := "Melbourne, Australia";
                Work.title := "Drupal Developer";
                Work.logoUrl := "/splunk.svg";
                Work.start := "January 2012";
                Work.end_ := "April 2013";
                Work.description := ("Developer of the first iteration of Swinburne "
                                  +:+ "Online education portal. Duties included "
                                  +:+ "client consulting, ytheme development, "
                                  +:+ "hosting server configuration.") |};
             {| Work.company := "MRG Metals";
                Work.href := "https://li.me/";
                Work.badges := [];
                Work.location := "Perth, Western Australia";
                Work.title := "Software Engineer";
                Work.logoUrl := "/lime.svg";
                Work.start := "January 2018";
                Work.end_ := "April 2018";
                Work.description := ("Liaison with graphic designer and client to "
                                  +:+ "design and develop a Drupal CMS website.") |};
             {| Work.company := "Indoor Air Quality";
                Work.href := "https://indoorairqualiry.com.au/";
                Work.badges := [];
                Work.location := "Melbourne, Australia";
                Work.title := "Proprietor";
                Work.logoUrl := "/mitremedia.png";
                Work.start := "May 2018";
                Work.end_ := "August 2023";
                Work.description := ("Started an air quality testing and consulting "
                                  +:+ "small business.") |};
             {| Work.company := "iSelect";
                Work.href := "https://iselect.com.au/";
                Work.badges := [];
                Work.location := "Melbourne, Australia";
                Work.title := "Senior Web Producer";
                Work.logoUrl := "/mitremedia.png";
                Work.start := "November 2005";
                Work.end_ := "December 2007";
                Work.description := "Leading front end web development." |};
             {| Work.company := "Ericsson Australia";
                Work.href := "https://ericcson.com.au/";
                Work.badges := [];
                Work.location := "Melbourne, Australia";
                Work.title := "UI Researcher abnd developer";
                Work.logoUrl := "/mitremedia.png";
                Work.start := "October 2005";
                Work.end_ := "August 2006";
                Work.description := ("I pioneered the use of HTML on mobile "
                                  +:+ "devices. I provided some leadership within "
                                  +:+ "the project ensuring that developers and "
                                  +:+ "graophic designers were working in unison to "
                                  +:+ "deliver high quality mobile web inferfces. I "
                                  +:+ "pioneered the research and prototying stages "
                                  +:+ "of teh project. I developed the mobile fun "
                                  +:+ "Telstra Protal User Interface.") |};
             {| Work.company := "AOT Travel";
                Work.href := "https://ericcson.com.au/";
                Work.badges := [];
                Work.location := "Melbourne, Australia";
                Work.title := "Web Designer and developer";
                Work.logoUrl := "/mitremedia.png";
                Work.start := "September 2005";
                Work.end_ := "August 2003";
                Work.description := ("Design and development of multiple websites "
                                  +:+ "for tourism marketing and booking brands.") |};
             {| Work.company := "AXA Australia";
                Work.href := "https://axa.com.au/";
                Work.badges := [];
                Work.location := "Melbourne, Australia";
                Work.title := "Web Site Administrator";
                Work.logoUrl := "/mitremedia.png";
                Work.start := "July 1998";
                Work.end_ := "August 1999";
                Work.description := ("Web site admin including daily publishing of "
                                  +:+ "financial information. Content maintenance, "
                                  +:+ "photoshop and other tasks as required to ake "
                                  +:+ "changes to Axa Australia (formerly National "
                                  +:+ "Mutual) websites. ") |} ];
     education := [ {| Education.school := "Buildspace";
                     Education.href := "https://buildspace.so";
                     Education.degree := "s3, s4, sf1, s5";
                     Education.logoUrl := "/buildspace.jpg";
                     Education.start := "2023";
                     Education.end_ := "2024" |} ];
     projects := [ {| Project.title := "Chat Collect";
                    Project.href := "https://chatcollect.com";
                    Project.dates := "Jan 2024 - Feb 2024";
                    Project.active := true;
                    Project.description := ("With the release of the [OpenAI GPT "
                                         +:+ "Store](https://openai.com/blog/introducing-the-gpt-store), "
                                         +:+ "I decided to build a SaaS which allows "
                                         +:+ "users to collect email addresses from "
                                         +:+ "their GPT users. This is a great way "
                                         +:+ "to build an audience and monetize your "
                                         +:+ "GPT API usage.");
                    Project.technologies := [ "Next.js";
                                           "Typescript";
                                           "PostgreSQL";
                                           "Prisma";
                                           "TailwindCSS";
                                           "Stripe";
                                           "Shadcn UI";
                                           "Magic UI" ];
                    Project.links := [ {| Link.type_ := "Website";
                                       Link.href := "https://chatcollect.com";
                                       Link.icon := (element (Component "Icons.globe") [("className", PString "size-3")] []) |} ];
                    Project.image := "";
                    Project.video := ("https://pub-83c5db439b40468498f97946200806f7.r2.dev/chat-collect.mp4") |};
                 {| Project.title := "Magic UI";
                    Project.href := "https://magicui.design";
                    Project.dates := "June 2023 - Present";
                    Project.active := true;
                    Project.description := ("Designed, developed and sold animated "
                                         +:+ "UI components for developers.");
                    Project.technologies := [ "Next.js";
                                           "Typescript";
                                           "PostgreSQL";
                                           "Prisma";
                                           "TailwindCSS";
                                           "Stripe";
                                           "Shadcn UI";
                                           "Magic UI" ];
                    Project.links := [ {| Link.type_ := "Website";
                                       Link.href := "https://magicui.design";
                                       Link.icon := (element (Component "Icons.globe") [("className", PString "size-3")] []) |};
                                    {| Link.type_ := "Source";
                                       Link.href := ("https://github.com/magicuidesign/magicui");
                                       Link.icon := (element (Component "Icons.github") [("className", PString "size-3")] []) |} ];
                    Project.image := "";
                    Project.video := "https://cdn.magicui.design/bento-grid.mp4" |} ];
     hackathons := [ {| Hackathon.title := "Hack Western 5";
                      Hackathon.dates := "November 23rd - 25th, 2018";
                      Hackathon.location := "London, Ontario";
                      Hackathon.description := ("Developed a mobile application "
                                             +:+ "which delivered bedtime stories to "
                                             +:+ "children using augmented reality.");
                      Hackathon.image := ("https://pub-83c5db439b40468498f97946200806f7.r2.dev/hackline/hack-western.png");
                      Hackathon.mlh := ("https://s3.amazonaws.com/logged-assets/trust-badge/2019/mlh-trust-badge-2019-white.svg");
                      Hackathon.links := [] |};
                   {| Hackathon.title := "Hack The North";
                      Hackathon.dates := "September 14th - 16th, 2018";
                      Hackathon.location := "Waterloo, Ontario";
                      Hackathon.description := ("Developed a mobile application "
                                             +:+ "which delivers university campus "
                                             +:+ "wide events in real time to all "
                                             +:+ "students.");
                      Hackathon.image := ("https://pub-83c5db439b40468498f97946200806f7.r2.dev/hackline/hack-the-north.png");
                      Hackathon.mlh := ("https://s3.amazonaws.com/logged-assets/trust-badge/2019/mlh-trust-badge-2019-white.svg");
                      Hackathon.links := [] |} ] |}.

(** [needle] occurs in [haystack]. *)
Fixpoint occurs_in (needle haystack : string) : bool :=
  String.prefix needle haystack
  || match haystack with
     | EmptyString => false
     | String _ rest => occurs_in needle rest
     end.

End SiteConfig.

(** ** The resume page of the portfolio app *)

Module PortfolioApp.
Import Jsx SiteConfig.

(** Modelled from the spec: the page components of the portfolio app are
    not among the sources.  A page component consumes the configuration to
    render a resume-style site: the name, the work history, the project
    list and the social links.  The page is written with host elements
    only, so the tree it returns is the document rendered. *)
Definition ResumePage (data : Profile) : Element :=
  element (Intrinsic "main") []
    [ Child (element (Intrinsic "h1") [] [Text (name data)]);
      Child (element (Intrinsic "section") [("id", PString "work")]
               (List.map (fun w => Child (element (Intrinsic "article") []
                                            [ Text (Work.company w); Text (Work.title w);
                                              Text (Work.start w); Text (Work.end_ w);
                                              Text (Work.description w) ]))
                         (work data)));
      Child (element (Intrinsic "section") [("id", PString "projects")]
               (List.map (fun p => Child (element (Intrinsic "article") []
                                            [ Text (Project.title p);
                                              Text (Project.description p) ]))
                         (projects data)));
      Child (element (Intrinsic "section") [("id", PString "contact")]
               (List.map (fun s => Child (element (Intrinsic "a")
                                            [("href", PString (Social.url (snd s)))]
                                            [Text (Social.name (snd s))]))
                         (Contact.social (contact data)))) ].

(** Modelled from the spec: the page of the site renders the exported
    configuration. *)
Definition HomePage : Element := ResumePage DATA.

(** Modelled from the spec: the rendered output of a page, as a smoke test
    reads it: the text of the document. *)
Definition rendered_output (page : Element) : string := text_content page.

End PortfolioApp.

(** ** The prose documents (Markdown and MDX) *)

Module Content.

(** A document of the repository, by the lines it opens with: its front
    matter and title, and the first line of text after them.  [part] counts
    the documents of the source file, from 1. *)
Record Document : Type := {
  source : string;
  part : nat;
  opening : list string
}.

Definition is_blank (line : string) : bool :=
  forallb (fun c => Ascii.eqb c " " || Ascii.eqb c "009") (list_ascii_of_string line).

(** The lines up to the first delimiter line, and the lines after it. *)
Fixpoint split_at_delimiter (lines : list string) : list string * list string :=
  match lines with
  | [] => ([], [])
  | line :: rest =>
      if String.prefix "---" line then ([], rest)
      else let '(fields, body) := split_at_delimiter rest in (line :: fields, body)
  end.

(** Modelled from the spec: the reader of the content pipeline is not among
    the sources.  A front-matter block is a metadata block prefixed to the
    document: it opens with a line of three dashes at the very start of the
    document, holds one [key: value] line per field, and ends at the next
    line that starts with three dashes.  The result is the field lines and
    the lines of the body. *)
Definition front_matter (d : Document) : option (list string * list string) :=
  match opening d with
  | first :: rest =>
      if String.prefix "---" first && negb (String.prefix "----" first)
      then Some (split_at_delimiter rest)
      else None
  | [] => None
  end.

Fixpoint drop_spaces (s : string) : string :=
  match s with
  | String " " rest => drop_spaces rest
  | _ => s
  end.

Definition trim (s : string) : string :=
  String.rev (drop_spaces (String.rev (drop_spaces s))).

(** The value of the first [key: value] line among the field lines. *)
Fixpoint field (key : string) (fields : list string) : option string :=
  match fields with
  | [] => None
  | line :: rest =>
      if String.prefix (key +:+ ":") line
      then Some (trim (String.substring (String.length key + 1)
                         (String.length line - (String.length key + 1)) line))
      else field key rest
  end.

Definition present (value : option string) : bool :=
  match value with
  | Some _ => true
  | None => false
  end.

Definition is_boolean (value : string) : bool :=
  String.eqb value "true" || String.eqb value "false".

(** The document begins with a front-matter block that has the four fields,
    [published] a boolean. *)
Definition complete_front_matter (d : Document) : bool :=
  match front_matter d with
  | Some (fields, _) =>
      present (field "title" fields)
      && present (field "publishedAt" fields)
      && present (field "summary" fields)
      && match field "published" fields with
         | Some value => is_boolean value
         | None => false
         end
  | None => false
  end.

(** What holds of every front-matter block of the repository: [title],
    [publishedAt] and [summary] are there, and [published], where it is
    there, is a boolean. *)
Definition front_matter_as_written (d : Document) : bool :=
  match front_matter d with
  | Some (fields, _) =>
      present (field "title" fields)
      && present (field "publishedAt" fields)
      && present (field "summary" fields)
      && match field "published" fields with
         | Some value => is_boolean value
         | None => true
         end
  | None => true
  end.

Definition has_front_matter (d : Document) : bool :=
  match front_matter d with
  | Some _ => true
  | None => false
  end.

Fixpoint drop_blank (lines : list string) : list string :=
  match lines with
  | line :: rest => if is_blank line then drop_blank rest else lines
  | [] => []
  end.

Definition is_heading (line : string) : bool := String.prefix "#" line.

(** A line set in bold from end to end, as the posts without front matter
    write their title. *)
Definition is_bold (line : string) : bool :=
  String.prefix "**" line && String.prefix "**" (String.rev line)
  && (4 <? String.length line)%nat.

(** The title of a post and the lines after it: the [title] field of the
    front matter and the body; for a post without front matter, the heading
    or bold line it opens with and the lines below; no title when it opens
    with ordinary text. *)
Definition title_and_body (d : Document) : option string * list string :=
  match front_matter d with
  | Some (fields, body) => (field "title" fields, body)
  | None =>
      match drop_blank (opening d) with
      | first :: rest =>
          if is_heading first || is_bold first then (Some first, rest)
          else (None, first :: rest)
      | [] => (None, [])
      end
  end.

Definition has_title (d : Document) : bool := present (fst (title_and_body d)).

(** Some line after the title is not blank. *)
Definition has_body (d : Document) : bool :=
  existsb (fun line => negb (is_blank line)) (snd (title_and_body d)).

(** The posts of the site: the documents written for the content pipeline,
    with front matter, and the articles kept as files of their own in the
    content directory of the portfolio app.  A document appended to
    another file, or one whose place in the repository the sources do not
    tell, is a post when it has the front matter of one. *)
Definition is_post (d : Document) : bool :=
  has_front_matter d
  || (String.prefix "apps/portfolio/content/" (source d) && (part d =? 1)%nat).

(** The article of the file.
    Lines 1 to 8 of its 331. *)
Definition design_systems_turborepo : Document :=
  {| source := "apps/portfolio/content/Design-Systems-Turborepo-and-Git-Submodules.mdx";
     part := 1;
     opening :=
       [ "---";
         ("title: " +:+ dq +:+ "Design Systems, Turborepo, and Git Submodules: Strategies for "
          +:+ "Managing Shared Resources in Modern Web Development" +:+ dq);
         ("publishedAt: " +:+ dq +:+ "2024-06-18" +:+ dq);
         ("summary: " +:+ dq +:+ "Managing a design system that serves various projects while "
          +:+ "being maintained separately from application development teams can be "
          +:+ "challenging." +:+ dq);
         "published: true";
         "---";
         "";
         ("**Design Systems, Turborepo, and Git Submodules: Strategies for "
          +:+ "Managing Shared Resources in Modern Web Development**") ] |}.

(** The article of the file.
    Lines 1 to 3 of its 99. *)
Definition unlocking_edgedb_native_ai : Document :=
  {| source := ("apps/portfolio/content/Unlocking the Power of EdgeDB’s Native "
                +:+ "AI - Transforming Legal, Construction, and Architecture "
                +:+ "Industries.md");
     part := 1;
     opening :=
       [ ("**Unlocking the Power of EdgeDB’s Native AI: Transforming Legal, "
          +:+ "Construction, and Architecture Industries**");
         "";
         ("In today’s fast-paced world, where data drives decisions, "
          +:+ "integrating AI into your workflow isn’t just an option—it’s a "
          +:+ "necessity. EdgeDB is leading the way by embedding AI capabilities "
          +:+ "directly into its core, offering powerful tools that are as easy to "
          +:+ "use as they are effective. This article will explore how these native "
          +:+ "AI features can revolutionize the way professionals in law, "
          +:+ "construction, and architecture approach their work.") ] |}.

(** The document that follows the article in the same file.
    Lines 1 to 3 of its 103. *)
Definition architecture_review : Document :=
  {| source := ("apps/portfolio/content/Unlocking the Power of EdgeDB’s Native "
                +:+ "AI - Transforming Legal, Construction, and Architecture "
                +:+ "Industries.md");
     part := 2;
     opening :=
       [ ("Let’s review and critique the proposed architecture, including the "
          +:+ "addition of Cloudflare KV (Key-Value) storage for caching, to further "
          +:+ "optimize the performance and efficiency of the system.");
         "";
         "### **1. Architecture Overview (With KV Cache)**" ] |}.

(** The article of the file.
    Lines 1 to 4 of its 276. *)
Definition final_predictive_maintenance : Document :=
  {| source := ("apps/portfolio/content/Final - Exploring Predictive Maintenance "
                +:+ "and AI in Construction and Engineering with EdgeDB.md");
     part := 1;
     opening :=
       [ "";
         ("**Exploring Predictive Maintenance and AI in Construction and "
          +:+ "Engineering with EdgeDB: A Guide**");
         "  ";
         "**Introduction**" ] |}.

(** The first document of the file.
    Lines 1 to 8 of its 338. *)
Definition natural_language_query_interface : Document :=
  {| source := "unnamed/part_000";
     part := 1;
     opening :=
       [ "---";
         ("title: " +:+ dq +:+ "Building a Natural Language Query Interface with EdgeDB, "
          +:+ "Cloudflare Pages, and AstroJS" +:+ dq);
         ("publishedAt: " +:+ dq +:+ "2024-06-18" +:+ dq);
         ("summary: " +:+ dq +:+ "What if you could simply ask your database a question in "
          +:+ "plain English, and it understood you?" +:+ dq);
         "published: true";
         "---";
         "";
         ("# Building a Natural Language Query Interface with EdgeDB, Cloudflare "
          +:+ "Pages, and AstroJS") ] |}.

(** The third document of the file (the second one is the root layout of the docs app).
    Lines 1 to 8 of its 191. *)
Definition improved_data_approach : Document :=
  {| source := "unnamed/part_000";
     part := 3;
     opening :=
       [ "---";
         ("title: " +:+ dq +:+ "An improved approach to managing your data using EdgeDB for "
          +:+ "core operations, D2 (Durable Object) for persistent storage, and "
          +:+ "Cloudflare KV for caching" +:+ dq);
         ("publishedAt: " +:+ dq +:+ "2024-06-18" +:+ dq);
         ("summary: " +:+ dq +:+ "Managing a design system that serves various projects while "
          +:+ "being maintained separately from application development teams can be "
          +:+ "challenging." +:+ dq);
         "published: true";
         "---  ";
         "";
         ("This guide outlines an improved approach to managing your data using "
          +:+ "EdgeDB for core operations, D2 (Durable Object) for persistent "
          +:+ "storage, and Cloudflare KV for caching in your Hono app deployed on "
          +:+ "Cloudflare Workers. The enhancements focus on automating cache "
          +:+ "invalidation, optimizing sync processes, and managing costs "
          +:+ "effectively.") ] |}.

(** The article that carries handleAutocompleteRequest.
    Lines 1 to 3 of its 235. *)
Definition autocomplete_architecture : Document :=
  {| source := "unnamed/part_002";
     part := 1;
     opening :=
       [ ("Building a fast, responsive autocomplete feature is crucial for "
          +:+ "delivering an excellent user experience in modern web applications. "
          +:+ "When working with large datasets, the challenge is to ensure that your "
          +:+ "system can handle high-frequency queries with minimal latency while "
          +:+ "maintaining data consistency. In this article, we’ll explore an "
          +:+ "optimized architecture that combines EdgeDB, Cloudflare D2 (Durable "
          +:+ "Objects), KV (Key-Value) caching, Hono for request handling, and "
          +:+ "Workers AI for NLP (Natural Language Processing) to SQL conversion. "
          +:+ "This setup will help you build a robust autocomplete feature for your "
          +:+ "Astro-based frontend.");
         "";
         "### **1. Architecture Overview**" ] |}.

(** The article of the file.
    Lines 1 to 8 of its 194. *)
Definition design_system_strategy : Document :=
  {| source := "unnamed/part_003";
     part := 1;
     opening :=
       [ "---";
         ("title: " +:+ dq +:+ "Choosing the Right Strategy for Managing a Design System: Git "
          +:+ "Submodules, Subtrees, Monorepos, and Package Management" +:+ dq);
         ("publishedAt: " +:+ dq +:+ "2024-06-18" +:+ dq);
         ("summary: " +:+ dq +:+ "Managing a design system that serves various projects while "
          +:+ "being maintained separately from application development teams can be "
          +:+ "challenging." +:+ dq);
         "published: true";
         "---";
         "";
         ("# Choosing the Right Strategy for Managing a Design System: Git "
          +:+ "Submodules, Subtrees, Monorepos, and Package Management") ] |}.

(** The article of the file.
    Lines 1 to 7 of its 94. *)
Definition safely_fork_a_remote : Document :=
  {| source := "unnamed/part_004";
     part := 1;
     opening :=
       [ "---";
         ("title: " +:+ dq +:+ "Safely Fork a Git Remote Instead of Clone" +:+ dq);
         ("publishedAt: " +:+ dq +:+ "2024-06-18" +:+ dq);
         ("summary: " +:+ dq +:+ "A guide to safely fork a Git remote instead of cloning to "
          +:+ "ensure you can keep your fork updated with the original repository." +:+ dq);
         "---";
         "";
         "**Steps for Setting Up Your Fork:**" ] |}.

(** The article that follows the Button stories in the same file.
    Lines 1 to 5 of its 246. *)
Definition dynamic_selection_article : Document :=
  {| source := "apps/stories/Button.jsx";
     part := 2;
     opening :=
       [ "";
         "";
         ("# Optimizing React Components with Dynamic Selection Based on User "
          +:+ "Interaction in Next.js 13+");
         "";
         ("Optimizing user experience is important for engaging users, "
          +:+ "improving conversions, and driving business growth. For developers "
          +:+ "working with React and Next.js, implementing systems that "
          +:+ "dynamically adjust components based on real-time user data is a "
          +:+ "powerful strategy to achieve optimization.") ] |}.

(** The prose documents of the repository. *)
Definition documents : list Document :=
  [ design_systems_turborepo;
    unlocking_edgedb_native_ai;
    architecture_review;
    final_predictive_maintenance;
    natural_language_query_interface;
    improved_data_approach;
    autocomplete_architecture;
    design_system_strategy;
    safely_fork_a_remote;
    dynamic_selection_article ].

End Content.

(** ** The autocomplete article, continued: writes, cache sync and the route
       (src/unnamed/part_002) *)

Module AutocompleteSync.
Import Js Autocomplete.

(** No object of the value has a key twice, as is the case of every
    object at run time. *)
Fixpoint unique_keys (v : Value) : bool :=
  match v with
  | Array items => forallb unique_keys items
  | Object members =>
      forallb (fun member => unique_keys (snd member)) members
      && bool_decide (NoDup (List.map fst members))
  | _ => true
  end.

(** The keys the KV namespace accepts: a key is not empty, is neither "."
    nor "..", and is at most 512 bytes long.  On any other key [get],
    [put] and [delete] reject; the operations of the model stand for the
    calls on the keys accepted. *)
Definition kv_accepts (key : string) : bool :=
  negb (String.eqb key "") && negb (String.eqb key ".") && negb (String.eqb key "..")
  && (String.length key <=? 512)%nat.

(** What [c.json(results)] answers: status 200 and the JSON text of the
    value as body (no body when there is no text). *)
Record HonoResponse : Type := {
  status : Z;
  body : option Text
}.

Definition c_json (results : Value) : HonoResponse :=
  {| status := 200; body := JSON_stringify results |}.

Section Worker.

Variable World : Type.
Variable fetch : string -> Text -> World -> completion Response * World.
Variable d2_query : Value -> World -> completion Value * World.

(** [client.execute(query, args)] of the EdgeDB HTTP client; the query
    text is passed with its line breaks and indentation left out. *)
Variable client_execute : string -> list (string * Value) -> World -> completion unit * World.

Notation "'let*' x ':=' c 'in' k" := (await World c (fun x => k))
  (at level 10, x name, c at level 100, k at level 200).

(** [env.KV_NAMESPACE.delete(key)] *)
Definition kv_delete (key : string) : Async World unit :=
  fun s => (Normal tt,
            ({| KV_NAMESPACE := delete key (KV_NAMESPACE (fst s));
                DURABLE_OBJECT := DURABLE_OBJECT (fst s) |},
             snd s)).

(** [d2Object.delete(key)] *)
Definition d2_delete (key : string) : Async World unit :=
  fun s => (Normal tt,
            ({| KV_NAMESPACE := KV_NAMESPACE (fst s);
                DURABLE_OBJECT := delete key (DURABLE_OBJECT (fst s)) |},
             snd s)).

Definition syncUserToCaches (name email : string) : Async World unit :=
  let userData := Object [("name", Str name); ("email", Str email)] in
  let* _ := d2_put World name userData in
  let* _ := kv_put World name (to_text (JSON_stringify userData)) 60 in
  ret World tt.

Definition removeUserFromCaches (id : string) : Async World unit :=
  let* _ := d2_delete id in
  let* _ := kv_delete id in
  ret World tt.

Definition addUser (name email : string) : Async World unit :=
  let* _ := outside World (client_execute
                             "INSERT User { name := <str>$name, email := <str>$email }"
                             [("name", Str name); ("email", Str email)]) in
  (* Sync with D2 and KV *)
  let* _ := syncUserToCaches name email in
  ret World tt.

(** [app.post('/autocomplete', ...)]: the handler of the route, given the
    text of the request body. *)
Definition autocomplete_route (request_text : string) : Async World HonoResponse :=
  let query := request_text in
  let* results := handleAutocompleteRequest World fetch d2_query query in
  ret World (c_json results).

End Worker.

End AutocompleteSync.

(** ** The Storybook configuration, continued: [webpackFinal]
       (apps/.storybook/main.js) *)

Module WebpackFinal.
Import Js.

(** An element of [config.resolve.plugins]. *)
Inductive Plugin : Type :=
| TsconfigPathsPlugin (configFile : string)
| OtherPlugin (name : string).

(** The webpack configuration as far as [webpackFinal] reads and writes
    it: [config.resolve], which may be undefined, and its [plugins], which
    may be undefined too. *)
Record Resolve : Type := {
  plugins : option (list Plugin)
}.

Record WebpackConfig : Type := {
  resolve : option Resolve
}.

Section Main.

(** The module binds [join], [dirname], [TsconfigPathsPlugin],
    [getAbsolutePath] and [config]; it binds no [path].  A use of [path]
    is therefore a use of a global of the host, if the host has one: then
    this is its [resolve]. *)
Variable global_path : option (string -> string -> string).
Variable __dirname : string.

(** The function runs on the object it is given: the second component is
    that object when the call ends. *)
Definition webpackFinal (config : WebpackConfig) : completion WebpackConfig * WebpackConfig :=
  match resolve config with
  | None =>
      (Throw (TypeError "Cannot read properties of undefined (reading 'plugins')"), config)
  | Some r =>
      (* config.resolve.plugins = config.resolve.plugins || []; *)
      let existing := default [] (plugins r) in
      let config1 := {| resolve := Some {| plugins := Some existing |} |} in
      (* the argument of push is evaluated before the call *)
      match global_path with
      | None => (Throw (ReferenceError "path is not defined"), config1)
      | Some path_resolve =>
          let config2 :=
            {| resolve :=
                 Some {| plugins :=
                           Some (existing
                                 ++ [TsconfigPathsPlugin
                                       (path_resolve __dirname "../tsconfig.json")]) |} |} in
          (Normal config2, config2)
      end
  end.

End Main.

End WebpackFinal.

(** ** The article on EdgeDB, D2 and KV (src/unnamed/part_000, third
       document) *)

Module UserData.
Import Js.

(** The bindings of [env] that hold data: the KV namespace, and the store
    of the object [env.DURABLE_OBJECT.get('user-data')]. *)
Record Env : Type := {
  KV_CACHE : gmap string Autocomplete.KvEntry;
  DURABLE_OBJECT : gmap string Value
}.

Definition Console : Type := list (string * Exception).

Section Worker.

(** [client.query(query, args)] of the EdgeDB HTTP client resolves to an
    array of rows, or rejects; the query text is passed with its line
    breaks and indentation left out.  [ToString] is the conversion a
    template literal applies to a value. *)
Variable World : Type.
Variable client_query : string -> list (string * Value) -> World -> completion (list Value) * World.
Variable ToString : Value -> string.

Record State : Type := {
  env : Env;
  world : World;
  console : Console
}.

Definition Async (A : Type) : Type := State -> completion A * State.

Definition ret {A : Type} (a : A) : Async A := fun s => (Normal a, s).

Definition await {A B : Type} (c : Async A) (k : A -> Async B) : Async B :=
  fun s => match c s with
           | (Normal a, s') => k a s'
           | (Throw e, s') => (Throw e, s')
           end.

Definition lift {A : Type} (c : completion A) : Async A := fun s => (c, s).

Notation "'let*' x ':=' c 'in' k" := (await c (fun x => k))
  (at level 10, x name, c at level 100, k at level 200).

Definition with_env (f : Env -> Env) : Async unit :=
  fun s => (Normal tt, {| env := f (env s); world := world s; console := console s |}).

(** [env.KV_CACHE.get(key)]: the stored string, or [null]. *)
Definition kv_get (key : string) : Async (option Text) :=
  fun s => (Normal (Autocomplete.value <$> KV_CACHE (env s) !! key), s).

(** [env.KV_CACHE.put(key, text, { expirationTtl: ttl })] *)
Definition kv_put (key : string) (text : Text) (ttl : Z) : Async unit :=
  with_env (fun e =>
    {| KV_CACHE := <[key := {| Autocomplete.value := text;
                               Autocomplete.expirationTtl := Some ttl |}]> (KV_CACHE e);
       DURABLE_OBJECT := DURABLE_OBJECT e |}).

(** [env.KV_CACHE.delete(key)] *)
Definition kv_delete (key : string) : Async unit :=
  with_env (fun e =>
    {| KV_CACHE := delete key (KV_CACHE e); DURABLE_OBJECT := DURABLE_OBJECT e |}).

(** [d2Object.get(key)]: the stored value, or [undefined]. *)
Definition d2_get (key : string) : Async Value :=
  fun s => (Normal (default Undefined (DURABLE_OBJECT (env s) !! key)), s).

(** [d2Object.put(key, v)] *)
Definition d2_put (key : string) (v : Value) : Async unit :=
  with_env (fun e =>
    {| KV_CACHE := KV_CACHE e; DURABLE_OBJECT := <[key := v]> (DURABLE_OBJECT e) |}).

(** [d2Object.delete(key)] *)
Definition d2_delete (key : string) : Async unit :=
  with_env (fun e =>
    {| KV_CACHE := KV_CACHE e; DURABLE_OBJECT := delete key (DURABLE_OBJECT e) |}).

Definition query (text : string) (args : list (string * Value)) : Async (list Value) :=
  fun s => let '(rows, w) := client_query text args (world s) in
           (rows, {| env := env s; world := w; console := console s |}).

(** The object literal [{ name, email }]. *)
Definition user (name email : string) : Value :=
  Object [("name", Str name); ("email", Str email)].

Definition createUser (name email : string) : Async unit :=
  (* Write to EdgeDB *)
  let* _ := query "INSERT User { name := <str>$name, email := <str>$email }"
              [("name", Str name); ("email", Str email)] in
  (* Store in D2 *)
  let* _ := d2_put ("user:" +:+ email) (user name email) in
  (* Update KV cache with TTL for automated expiration *)
  let* _ := kv_put ("user:" +:+ email) (to_text (JSON_stringify (user name email))) 3600 in
  ret tt.

Definition updateUser (userId name email : string) : Async unit :=
  (* Update in EdgeDB *)
  let* _ := query ("UPDATE User FILTER .id = <uuid>$userId "
                   +:+ "SET { name := <str>$name, email := <str>$email }")
              [("userId", Str userId); ("name", Str name); ("email", Str email)] in
  (* Update in D2 *)
  let* _ := d2_put ("user:" +:+ userId) (user name email) in
  (* Invalidate or update KV cache with TTL *)
  let* _ := kv_delete ("user:" +:+ email) in
  let* _ := kv_put ("user:" +:+ email) (to_text (JSON_stringify (user name email))) 3600 in
  ret tt.

Definition deleteUser (userId email : string) : Async unit :=
  (* Delete from EdgeDB *)
  let* _ := query "DELETE User FILTER .id = <uuid>$userId" [("userId", Str userId)] in
  (* Remove from D2 *)
  let* _ := d2_delete ("user:" +:+ email) in
  (* Remove from KV cache *)
  let* _ := kv_delete ("user:" +:+ email) in
  ret tt.



(** The state after [d2Object.put(key, u)]. *)
Definition stored (key : string) (u : Value) (s : State) : State :=
  {| env := {| KV_CACHE := KV_CACHE (env s);
               DURABLE_OBJECT := <[key := u]> (DURABLE_OBJECT (env s)) |};
     world := world s;
     console := console s |}.

(** The [for (const user of users)] loop of [syncEdgeDBToD2]. *)
Fixpoint put_users (users : list Value) : Async unit :=
  match users with
  | [] => ret tt
  | user :: rest =>
      let* email := lift (get_property user "email") in
      let* _ := d2_put ("user:" +:+ ToString email) user in
      put_users rest
  end.

Definition syncEdgeDBToD2 : Async unit :=
  fun s =>
    (* try *)
    match (let* users := query "SELECT User { name, email }" [] in put_users users) s with
    | (Normal _, s') => (Normal tt, s')
    | (Throw error, s') =>
        (* catch (error) *)
        (Normal tt,
         {| env := env s';
            world := world s';
            console := console s' ++ [("Error syncing data from EdgeDB to D2:", error)] |})
    end.

End Worker.

(** The [email] of a row that is an object with a string under that key. *)
Definition row_email (u : Value) : option string :=
  match u with
  | Object members =>
      match lookup_member "email" members with
      | Str e => Some e
      | _ => None
      end
  | _ => None
  end.

End UserData.

(** ** States and services used as examples *)

Module Samples.
Import Js EdgeDB Autocomplete.

(** A database with two clicks on 'A' and one on 'B'. *)
Definition two_A_one_B : Database :=
  {| ButtonClicks := [ {| version := "A"; timestamp := 1 |};
                       {| version := "B"; timestamp := 2 |};
                       {| version := "A"; timestamp := 3 |} ];
     clock := 4;
     reachable := true |}.

(** A database with one click on each version. *)
Definition one_each : Database :=
  {| ButtonClicks := [ {| version := "A"; timestamp := 1 |};
                       {| version := "B"; timestamp := 2 |} ];
     clock := 3;
     reachable := true |}.

(** An empty database whose server is down, and one whose server is up. *)
Definition server_down : Database :=
  {| ButtonClicks := []; clock := 7; reachable := false |}.

Definition server_up : Database :=
  {| ButtonClicks := []; clock := 7; reachable := true |}.

(** An outside world that answers every conversion with one SQL text and
    every SQL query with one row; its state counts the calls made. *)
Definition fetch (url : string) (body : Text) (calls : nat) : completion Response * nat :=
  (Normal {| ok := true;
             statusText := "OK";
             json := Normal (Object [("sqlQuery", Str "SELECT name, email FROM users")]) |},
   S calls).

Definition rows : Value :=
  Array [Object [("name", Str "Alice"); ("email", Str "alice@example.com")]].

Definition d2_query (sql : Value) (calls : nat) : completion Value * nat :=
  (Normal rows, S calls).

Definition empty_env : Env :=
  {| KV_NAMESPACE := ∅; DURABLE_OBJECT := ∅ |}.

(** The stores after the first request for "al" in [empty_env]. *)
Definition env_after_al : Env :=
  {| KV_NAMESPACE :=
       {[ "al" := {| value := to_text (JSON_stringify rows); expirationTtl := Some 60%Z |} ]};
     DURABLE_OBJECT := {[ "al" := rows ]} |}.

(** The durable object holds, under "al", an array with a number that is
    not finite; KV is empty. *)
Definition env_with_NaN : Env :=
  {| KV_NAMESPACE := ∅; DURABLE_OBJECT := {[ "al" := Array [Num NaN] ]} |}.

(** An installation with every package under /repo/node_modules. *)
Definition installed (request : string) : completion string :=
  Normal ("/repo/node_modules/" +:+ request).

(** The same installation without the Chromatic addon. *)
Definition without_chromatic (request : string) : completion string :=
  if String.prefix "@chromatic-com/" request
  then Throw (Error ("Cannot find module '" +:+ request +:+ "'"))
  else Normal ("/repo/node_modules/" +:+ request).

End Samples.

(** ** More states and services used as examples *)

Module MoreSamples.
Import Js EdgeDB Autocomplete.

(** A Workers AI endpoint that is down. *)
Definition fetch_unavailable (url : string) (body : Text) (calls : nat)
  : completion Response * nat :=
  (Normal {| ok := false;
             statusText := "Service Unavailable";
             json := Throw (SyntaxError "Unexpected end of JSON input") |},
   S calls).

(** An EdgeDB client whose statements succeed, and one that cannot reach
    the server. *)
Definition execute_ok (text : string) (args : list (string * Value)) (calls : nat)
  : completion unit * nat :=
  (Normal tt, S calls).


Definition query_down (text : string) (args : list (string * Value)) (calls : nat)
  : completion (list Value) * nat :=
  (Throw (Error "ClientConnectionError"), S calls).

(** A client whose every query answers two users. *)
Definition alice : Value := Object [("name", Str "Alice"); ("email", Str "alice@example.com")].

Definition bob : Value := Object [("name", Str "Bob"); ("email", Str "bob@example.com")].

Definition query_two_users (text : string) (args : list (string * Value)) (calls : nat)
  : completion (list Value) * nat :=
  (Normal [alice; bob], S calls).

(** The conversion of a template literal, on the values of the examples
    (strings, [undefined], [null] and booleans). *)
Definition sample_ToString (v : Value) : string :=
  match v with
  | Str s => s
  | Undefined => "undefined"
  | Null => "null"
  | Boolean true => "true"
  | Boolean false => "false"
  | _ => "[object Object]"
  end.

(** The durable object holds 0 under "al"; KV is empty. *)
Definition env_with_zero : Env :=
  {| KV_NAMESPACE := ∅; DURABLE_OBJECT := {[ "al" := Num (Finite 0) ]} |}.

(** Stores that hold something under "bo" and nothing under "al". *)
Definition env_with_bo : Env :=
  {| KV_NAMESPACE := {[ "bo" := {| value := JsonText (JArray []); expirationTtl := Some 60%Z |} ]};
     DURABLE_OBJECT := {[ "bo" := Array [] ]} |}.

(** The stores of the user-data article, empty, with no call made yet. *)
Definition no_users : UserData.State nat :=
  {| UserData.env := {| UserData.KV_CACHE := ∅; UserData.DURABLE_OBJECT := ∅ |};
     UserData.world := 0%nat;
     UserData.console := [] |}.

(** A webpack configuration with one plugin, and one without
    [resolve.plugins]. *)
Definition webpack_config : WebpackFinal.WebpackConfig :=
  {| WebpackFinal.resolve :=
       Some {| WebpackFinal.plugins := Some [WebpackFinal.OtherPlugin "ModuleScopePlugin"] |} |}.

End MoreSamples.

(* ===================================================================== *)
(** * Part II: properties *)
(* ===================================================================== *)

(** ** Dynamic component selection *)

Section DynamicSelection.
Import Js Jsx EdgeDB QueryBuilder DynamicCTA Samples.

(** The first call of a request evaluates the query and remembers its
    outcome; later calls of the same request repeat it. *)
Lemma getBestPerformingButton_first_call (db : Database) :
  getBestPerformingButton None db = (select_best db, Some (select_best db)).
Proof. reflexivity. Qed.

(** The builder has no [filter] on [e.ButtonClick]: the query is never
    built, whatever the database holds. *)
Lemma select_best_rejects (db : Database) :
  select_best db = Throw (TypeError "e.ButtonClick.filter is not a function").
Proof. reflexivity. Qed.

Lemma DynamicCTA_rejects (db : Database) :
  fst (DynamicCTA None db) = Throw (TypeError "e.ButtonClick.filter is not a function").
Proof. reflexivity. Qed.

(** C1 on the code: for every state of the database, the first call of
    [getBestPerformingButton] in a request is rejected with a TypeError
    while the query is being built, and [DynamicCTA] throws it: no
    [CTAButton] is rendered.  With two clicks on 'A' and one on 'B' the
    query is written to answer 'A'; the call answers nothing. *)
Theorem getBestPerformingButton_rejects_for_every_database (db : Database) :
  (exists message,
     fst (getBestPerformingButton None db) = Throw (TypeError message)
     /\ fst (DynamicCTA None db) = Throw (TypeError message))
  /\ intended_result two_A_one_B = Normal "A"
  /\ fst (getBestPerformingButton None two_A_one_B) <> Normal "A".
Proof.
  split; [| split].
  - exists "e.ButtonClick.filter is not a function".
    rewrite getBestPerformingButton_first_call, DynamicCTA_rejects, select_best_rejects.
    split; reflexivity.
  - reflexivity.
  - rewrite getBestPerformingButton_first_call, select_best_rejects. discriminate.
Qed.

(** C3 on the code: with one click on each version the counts are equal
    and the query is written to answer 'B'; the call is rejected all the
    same, and [DynamicCTA] renders no button of version 'B'. *)
Theorem tie_renders_nothing :
  count_version "A" one_each = count_version "B" one_each
  /\ intended_result one_each = Normal "B"
  /\ (exists message,
        fst (getBestPerformingButton None one_each) = Throw (TypeError message)
        /\ fst (DynamicCTA None one_each) = Throw (TypeError message))
  /\ fst (DynamicCTA None one_each)
     <> Normal (element (Intrinsic "div") [] [Child (CTAButton_element "B")]).
Proof.
  split; [reflexivity | split; [reflexivity | split]].
  - exists "e.ButtonClick.filter is not a function".
    rewrite getBestPerformingButton_first_call, DynamicCTA_rejects, select_best_rejects.
    split; reflexivity.
  - rewrite DynamicCTA_rejects. discriminate.
Qed.

(** The text of the button the article's test looks for. *)
Example CTAButton_text :
  text_content (CTAButton "A") = "Buy Now (Version A)".
Proof. reflexivity. Qed.

End DynamicSelection.

(** ** The click-tracking route *)

Section ClickTracking.
Import Js EdgeDB TrackClickRoute.

Variable run_insert : Value -> Database -> completion Database.

(** The three ways a call of [POST] can go. *)
Lemma POST_cases (request : Request) (db : Database) (console : Console) :
  (exists e, read_version request = Throw e
             /\ POST run_insert request db console = (Throw e, db, console))
  \/ (exists version db', read_version request = Normal version
             /\ run_insert version db = Normal db'
             /\ POST run_insert request db console = (Normal click_tracked, db', console))
  \/ (exists version error, read_version request = Normal version
             /\ run_insert version db = Throw error
             /\ POST run_insert request db console
                = (Normal error_tracking_click, db,
                   console ++ [("Error tracking click:", error)])).
Proof.
  unfold POST.
  destruct (read_version request) as [version | e] eqn:Hread.
  - destruct (run_insert version db) as [db' | error] eqn:Hrun.
    + right; left. exists version, db'. repeat split; reflexivity || assumption.
    + right; right. exists version, error. repeat split; reflexivity || assumption.
  - left. exists e. split; reflexivity.
Qed.

(** C4: [POST] answers 200 'Click tracked' if and only if the insert
    succeeds; when the insert throws it answers 500 'Error tracking click';
    and an exception that does reach the caller was raised before the [try]
    block, by [request.json()] or the destructuring, never by the insert. *)
Theorem POST_reports_the_insert (request : Request) (db : Database) (console : Console) :
  (fst (fst (POST run_insert request db console)) = Normal click_tracked
   <-> insert_succeeds run_insert request db)
  /\ (insert_throws run_insert request db ->
      fst (fst (POST run_insert request db console)) = Normal error_tracking_click)
  /\ (forall e, fst (fst (POST run_insert request db console)) = Throw e ->
      read_version request = Throw e /\ ~ insert_throws run_insert request db).
Proof.
  destruct (POST_cases request db console)
    as [[e [Hread HP]] | [[version [db' [Hread [Hrun HP]]]] | [version [error [Hread [Hrun HP]]]]]];
    rewrite HP; simpl.
  - split; [split |].
    + discriminate.
    + intros [v [d [Hv _]]]. congruence.
    + split.
      * intros [v [err [Hv _]]]. congruence.
      * intros e' He'. injection He' as <-. split; [assumption |].
        intros [v [err [Hv _]]]. congruence.
  - split; [split |].
    + intros _. exists version, db'. split; assumption.
    + reflexivity.
    + split.
      * intros [v [err [Hv Hr]]]. congruence.
      * discriminate.
  - split; [split |].
    + discriminate.
    + intros [v [d [Hv Hr]]]. congruence.
    + split.
      * reflexivity.
      * discriminate.
Qed.

End ClickTracking.

Section ClickTrackingExamples.
Import Js EdgeDB TrackClickRoute Samples.

(** A click on the button of version 'A' while the server is down: the
    insert throws and the route answers 500. *)
Lemma POST_reports_the_insert_witness :
  fst (fst (POST insert_ButtonClick (DynamicCTA.trackClick "A")
              server_down []))
  = Normal error_tracking_click.
Proof.
  apply (proj1 (proj2 (POST_reports_the_insert insert_ButtonClick (DynamicCTA.trackClick "A")
                         server_down []))).
  exists (Str "A"), (Error "ClientConnectionError"). split; reflexivity.
Defined.

(** The same click with the server up is stored with the server's time. *)
Example POST_stores_the_click :
  POST insert_ButtonClick (DynamicCTA.trackClick "A")
    server_up []
  = (Normal click_tracked,
     {| ButtonClicks := [ {| version := "A"; timestamp := 7 |} ]; clock := 7; reachable := true |},
     []).
Proof. reflexivity. Qed.

(** A body that is not JSON makes [request.json()] reject before the [try]
    block: the exception reaches the caller. *)
Example POST_rejects_on_malformed_body :
  fst (fst (POST insert_ButtonClick {| body := Raw "version=A" |}
              server_up []))
  = Throw (SyntaxError "Unexpected token in JSON").
Proof. reflexivity. Qed.

End ClickTrackingExamples.

(** ** JSON: what survives [JSON.parse(JSON.stringify(v))] *)

Section JsonRoundTrip.
Import Js.

(** Induction on values, through the lists of arrays and objects. *)
Lemma Value_nested_ind (P : Value -> Prop) :
  P Undefined -> P Null -> (forall b, P (Boolean b)) -> (forall n, P (Num n)) ->
  (forall s, P (Str s)) ->
  (forall items, Forall P items -> P (Array items)) ->
  (forall members, Forall (fun member => P (snd member)) members -> P (Object members)) ->
  forall v, P v.
Proof.
  intros HU HN HB HNum HS HA HO.
  fix IH 1. intros [ | | b | n | s | items | members].
  - exact HU.
  - exact HN.
  - apply HB.
  - apply HNum.
  - apply HS.
  - apply HA. induction items as [| x xs IHxs]; constructor; [apply IH | exact IHxs].
  - apply HO. induction members as [| [k x] ms IHms]; constructor; [apply IH | exact IHms].
Qed.

(** A new key goes to the end of the object. *)
Lemma define_member_fresh (k : string) (v : Value) (members : list (string * Value)) :
  k ∉ List.map fst members -> define_member k v members = members ++ [(k, v)].
Proof.
  induction members as [| [k' v'] rest IH]; intros Hk; simpl in *.
  - reflexivity.
  - destruct (String.eqb_spec k k') as [-> | Hne].
    + exfalso. apply Hk. left.
    + f_equal. apply IH. intros Hin. apply Hk. now right.
Qed.

(** Members with distinct keys are added in their order. *)
Lemma build_object_fresh (members : list (string * Json)) (object : list (string * Value)) :
  NoDup (List.map fst object ++ List.map fst members) ->
  fold_left (fun object member => define_member (fst member) (revive (snd member)) object)
    members object
  = object ++ List.map (fun member => (fst member, revive (snd member))) members.
Proof.
  revert object. induction members as [| [k j] rest IH]; intros object Hnd; simpl.
  - now rewrite app_nil_r.
  - rewrite define_member_fresh.
    + rewrite IH.
      * now rewrite <- app_assoc.
      * rewrite map_app. simpl. rewrite <- app_assoc. exact Hnd.
    + simpl in Hnd. apply NoDup_app in Hnd as (_ & Hdisj & _).
      intros Hin. apply (Hdisj k Hin). left.
Qed.

(** Plain JSON data has a JSON text, and the text denotes the same value. *)
Lemma plain_round_trip (v : Value) :
  plain v = true -> exists j, serialize v = Some j /\ revive j = v.
Proof.
  induction v as [ | | b | n | s | items IH | members IH] using Value_nested_ind; simpl; intros Hp.
  - discriminate.
  - eexists; split; reflexivity.
  - eexists; split; reflexivity.
  - destruct n; try discriminate. eexists; split; reflexivity.
  - eexists; split; reflexivity.
  - eexists; split; [reflexivity |]. simpl. f_equal.
    induction IH as [| x xs Hx _ IHxs]; simpl in *; [reflexivity |].
    apply andb_prop in Hp as [Hpx Hpxs].
    destruct (Hx Hpx) as [j [-> Hj]]. simpl. rewrite Hj. f_equal. now apply IHxs.
  - eexists; split; [reflexivity |]. simpl. f_equal.
    apply andb_prop in Hp as [Hp Hnd]. apply bool_decide_eq_true in Hnd.
    assert (Homap : omap (fun member => match serialize (snd member) with
                                        | Some j => Some (fst member, j)
                                        | None => None
                                        end) members
                    = List.map (fun member => (fst member, default JNull (serialize (snd member)))) members
                    /\ List.map (fun member => (fst member, revive (default JNull (serialize (snd member))))) members = members).
    { clear Hnd. induction IH as [| [k x] ms Hx _ IHms]; simpl in *; [split; reflexivity |].
      apply andb_prop in Hp as [Hpx Hpms].
      destruct (Hx Hpx) as [j [Hs Hj]]. rewrite Hs. simpl.
      destruct (IHms Hpms) as [H1 H2]. split.
      - f_equal. exact H1.
      - rewrite Hj. f_equal. exact H2. }
    destruct Homap as [-> Hmap].
    rewrite build_object_fresh.
    + simpl. rewrite List.map_map. simpl. exact Hmap.
    + simpl. rewrite List.map_map. simpl. exact Hnd.
Qed.
End JsonRoundTrip.

(** ** The autocomplete cache *)

Section AutocompleteCache.
Import Js Autocomplete.

Variable World : Type.
Variable fetch : string -> Text -> World -> completion Response * World.
Variable d2_query : Value -> World -> completion Value * World.

(** A truthy entry under the key: the call parses it and touches nothing. *)
Lemma handle_hit (query : string) (s : Env * World) (entry : KvEntry) :
  KV_NAMESPACE (fst s) !! query = Some entry ->
  truthy_text (value entry) = true ->
  handleAutocompleteRequest World fetch d2_query query s = (JSON_parse (value entry), s).
Proof.
  intros Hget Htruthy.
  unfold handleAutocompleteRequest, await, kv_get, lift.
  rewrite Hget. simpl. now rewrite Htruthy.
Qed.

(** No truthy entry under the key: the call is the fallback. *)
Lemma handle_miss (query : string) (s : Env * World) :
  (forall entry, KV_NAMESPACE (fst s) !! query = Some entry -> truthy_text (value entry) = false) ->
  handleAutocompleteRequest World fetch d2_query query s = fallback_to_D2 World fetch d2_query query s.
Proof.
  intros Hmiss.
  unfold handleAutocompleteRequest, await, kv_get.
  destruct (KV_NAMESPACE (fst s) !! query) as [entry |] eqn:Hget; simpl.
  - now rewrite (Hmiss entry eq_refl).
  - reflexivity.
Qed.

(** A fallback that resolves has put the JSON text of its result under the
    key, with a time to live of 60 seconds. *)
Lemma fallback_caches (query : string) (s s' : Env * World) (r : Value) :
  fallback_to_D2 World fetch d2_query query s = (Normal r, s') ->
  KV_NAMESPACE (fst s') !! query
  = Some {| value := to_text (JSON_stringify r); expirationTtl := Some 60%Z |}.
Proof.
  unfold fallback_to_D2, await, d2_get, kv_put, ret. simpl.
  destruct (negb (truthy (default Undefined (DURABLE_OBJECT (fst s) !! query)))).
  - destruct (performNLPToSQLConversion World fetch query s) as [[sql | e] s1]; [| discriminate].
    unfold executeSQLQueryOnD2, await, outside, d2_put, ret.
    destruct (d2_query sql (snd s1)) as [[results | e] w]; simpl; [| discriminate].
    intros [= <- <-]. simpl. apply lookup_insert_eq.
  - intros [= <- <-]. simpl. apply lookup_insert_eq.
Qed.

Lemma truthy_json_text_of_plain (r : Value) :
  plain r = true ->
  exists j, to_text (JSON_stringify r) = JsonText j /\ revive j = r.
Proof.
  intros Hp. destruct (plain_round_trip r Hp) as [j [Hs Hr]].
  exists j. unfold JSON_stringify. rewrite Hs. split; [reflexivity | exact Hr].
Qed.

(** C10, amended: when a call of [handleAutocompleteRequest] resolves with
    plain JSON data, a second call with the same query, made in the state
    the first one left, resolves with the same value and leaves the state
    as it is: it is answered from the KV entry of the query, which the first
    call either found or wrote, as the JSON text of its result with a time
    to live of 60 seconds. *)
Theorem second_call_served_from_kv (query : string) (s s1 : Env * World) (r1 : Value) :
  handleAutocompleteRequest World fetch d2_query query s = (Normal r1, s1) ->
  plain r1 = true ->
  handleAutocompleteRequest World fetch d2_query query s1 = (Normal r1, s1)
  /\ served_from_kv World query s1
       (handleAutocompleteRequest World fetch d2_query query s1)
  /\ (served_from_kv World query s
        (handleAutocompleteRequest World fetch d2_query query s)
      \/ exists j, serialize r1 = Some j
                   /\ KV_NAMESPACE (fst s1) !! query
                      = Some {| value := JsonText j; expirationTtl := Some 60%Z |}).
Proof.
  intros Hfirst Hplain.
  destruct (KV_NAMESPACE (fst s) !! query) as [entry |] eqn:Hget.
  - destruct (truthy_text (value entry)) eqn:Htruthy.
    + (* found by the first call *)
      pose proof (handle_hit query s entry Hget Htruthy) as Hhit.
      rewrite Hhit in Hfirst. injection Hfirst as Hparse <-.
      split; [now rewrite Hhit, Hparse |].
      split; [| left]; exists entry; auto.
    + rewrite handle_miss in Hfirst
        by (intros entry' Hentry'; rewrite Hget in Hentry'; now injection Hentry' as <-).
      pose proof (fallback_caches query s s1 r1 Hfirst) as Hkv.
      destruct (truthy_json_text_of_plain r1 Hplain) as [j [Htext Hrev]].
      rewrite Htext in Hkv.
      pose proof (handle_hit query s1 _ Hkv eq_refl) as Hhit. simpl in Hhit.
      rewrite Hrev in Hhit.
      split; [exact Hhit |].
      split.
      * eexists. split; [exact Hkv |]. split; [reflexivity |]. rewrite Hhit. simpl. now rewrite Hrev.
      * right. exists j. split; [| exact Hkv].
        unfold JSON_stringify in Htext. destruct (serialize r1); simpl in Htext; congruence.
  - rewrite handle_miss in Hfirst by (intros entry' Hentry'; rewrite Hget in Hentry'; discriminate).
    pose proof (fallback_caches query s s1 r1 Hfirst) as Hkv.
    destruct (truthy_json_text_of_plain r1 Hplain) as [j [Htext Hrev]].
    rewrite Htext in Hkv.
    pose proof (handle_hit query s1 _ Hkv eq_refl) as Hhit. simpl in Hhit.
    rewrite Hrev in Hhit.
    split; [exact Hhit |].
    split.
    * eexists. split; [exact Hkv |]. split; [reflexivity |]. rewrite Hhit. simpl. now rewrite Hrev.
    * right. exists j. split; [| exact Hkv].
      unfold JSON_stringify in Htext. destruct (serialize r1); simpl in Htext; congruence.
Qed.

End AutocompleteCache.

Section AutocompleteExamples.
Import Js Autocomplete Samples.

(** The first request for "al" in the empty stores asks the outside world
    twice and fills both stores; the second one is answered from KV. *)
Lemma second_call_served_from_kv_witness :
  handleAutocompleteRequest nat fetch d2_query "al" (empty_env, 0%nat)
  = (Normal rows, (env_after_al, 2%nat))
  /\ handleAutocompleteRequest nat fetch d2_query "al" (env_after_al, 2%nat)
     = (Normal rows, (env_after_al, 2%nat)).
Proof.
  assert (Hfirst : handleAutocompleteRequest nat fetch d2_query "al" (empty_env, 0%nat)
                   = (Normal rows, (env_after_al, 2%nat))).
  { vm_compute. reflexivity. }
  split; [exact Hfirst |].
  exact (proj1 (second_call_served_from_kv nat fetch d2_query "al"
                  (empty_env, 0%nat) (env_after_al, 2%nat) rows Hfirst eq_refl)).
Defined.

(** C10 as stated fails: two calls in succession need not return equal
    results.  With an array holding NaN in the durable object, the first
    call returns that array and caches its JSON text, in which NaN is
    written null; the second call returns the array parsed from the text. *)
Lemma second_call_may_differ :
  ~ (forall (World : Type)
            (fetch : string -> Text -> World -> completion Response * World)
            (d2_query : Value -> World -> completion Value * World)
            (query : string) (s s1 s2 : Env * World) (r1 r2 : Value),
        handleAutocompleteRequest World fetch d2_query query s = (Normal r1, s1) ->
        handleAutocompleteRequest World fetch d2_query query s1 = (Normal r2, s2) ->
        r1 = r2).
Proof.
  intros Hequal.
  specialize (Hequal nat fetch d2_query "al" (env_with_NaN, 0%nat) _ _
                (Array [Num NaN]) (Array [Null]) eq_refl eq_refl).
  discriminate Hequal.
Qed.

(** The two calls of the counterexample, evaluated. *)
Example NaN_first_call :
  fst (handleAutocompleteRequest nat fetch d2_query "al" (env_with_NaN, 0%nat))
  = Normal (Array [Num NaN]).
Proof. vm_compute. reflexivity. Qed.

Example NaN_second_call :
  fst (handleAutocompleteRequest nat fetch d2_query "al"
         (snd (handleAutocompleteRequest nat fetch d2_query "al" (env_with_NaN, 0%nat))))
  = Normal (Array [Null]).
Proof. vm_compute. reflexivity. Qed.

End AutocompleteExamples.

(** ** The Storybook configuration *)

Section StorybookConfiguration.
Import Js Storybook.

Variable require_resolve : string -> completion string.

(** [getAbsolutePath] resolves exactly when [require.resolve] does, and then
    gives the directory of the file found. *)
Lemma getAbsolutePath_resolved (value file : string) :
  require_resolve (join value "package.json") = Normal file ->
  getAbsolutePath require_resolve value = Normal (dirname file).
Proof. intros H. unfold getAbsolutePath. now rewrite H. Qed.




End StorybookConfiguration.

Section StorybookExamples.
Import Js Storybook Samples.


(** The addons of the configuration in the sample installation. *)
Example addons_installed :
  match config installed with
  | Normal c => addons c
  | Throw _ => []
  end
  = [ "/repo/node_modules/@storybook/addon-onboarding";
      "/repo/node_modules/@storybook/addon-links";
      "/repo/node_modules/@storybook/addon-essentials";
      "/repo/node_modules/@chromatic-com/storybook";
      "/repo/node_modules/@storybook/addon-interactions" ].
Proof. vm_compute. reflexivity. Qed.

(** A missing addon package makes the module throw while it builds the
    object. *)
Example config_without_chromatic :
  config without_chromatic
  = Throw (Error "Cannot find module '@chromatic-com/storybook/package.json'").
Proof. vm_compute. reflexivity. Qed.

Example dirname_examples :
  dirname "/a/b/package.json" = "/a/b" /\ dirname "/a" = "/" /\ dirname "a" = "."
  /\ dirname "/a/b/" = "/a" /\ dirname "" = ".".
Proof. repeat split. Qed.

End StorybookExamples.

(** ** The pages of the docs app *)

Section DocsPages.
Import Js Jsx.

(** C7: the docs [Page] components are constant: any two invocations,
    whatever they are called with, return the same element tree. *)
Theorem Page_returns_the_same_tree (props1 props2 : Props) :
  DocsPage.Page props1 = DocsPage.Page props2
  /\ ChartsPage.Page props1 = ChartsPage.Page props2
  /\ Forall (fun page => DocsApp.Page page props1 = DocsApp.Page page props2) DocsApp.pages.
Proof.
  split; [reflexivity | split; [reflexivity |]].
  repeat constructor.
Qed.

(** C8: every invocation of the docs [Page] component completes normally
    and returns an element, the [main] element of the page, whose tree
    holds the heading of the page and the eight component elements it arranges. *)
Theorem Page_renders_without_throwing (props : Props) :
  exists e : Element,
    DocsPage.Page props = Normal e
    /\ element_type e = Intrinsic "main"
    /\ text_content e = "DocsGet Unlimited AccessClick meEmailSubmitNeon Gradient Card"
    /\ components_of e
       = [ "RainbowButton"; "Button"; "Label"; "Input"; "Button"; "ToastDemo";
           "NeonGradientCard"; "RetroGridDemo" ].
Proof.
  eexists. split; [reflexivity |].
  split; [reflexivity |].
  split; vm_compute; reflexivity.
Qed.

End DocsPages.

(** ** The site configuration and the pages *)

Section SiteConfiguration.
Import Js Jsx SiteConfig PortfolioApp.

(** A string occurs in every string it begins. *)
Lemma occurs_in_prefix (needle haystack : string) :
  String.prefix needle haystack = true -> occurs_in needle haystack = true.
Proof. destruct haystack; simpl; intros ->; reflexivity. Qed.

Lemma prefix_app (s tail rest : string) :
  String.prefix s ((s +:+ tail) +:+ rest) = true.
Proof.
  induction s as [| a s IH].
  - change (String.prefix "" (tail +:+ rest) = true). now destruct (tail +:+ rest).
  - simpl. destruct (ascii_dec a a) as [_ | Hne]; [exact IH | now destruct Hne].
Qed.

(** The text of the resume page begins with the name of the profile. *)
Lemma ResumePage_shows_the_name (data : Profile) :
  occurs_in (name data) (rendered_output (ResumePage data)) = true.
Proof. apply occurs_in_prefix. apply prefix_app. Qed.

(** C9: the repository exports the site configuration [DATA], a
    personal-profile record with a name, contact fields, an ordered list of
    skills, work-history entries, projects and hackathon entries; a page
    component that consumes a configuration shows its name, so the profile
    name of [DATA] appears in the rendered output of the page of the site,
    a document of host elements only. *)
Theorem profile_name_appears_in_the_rendered_output :
  (name DATA = "Stew " +:+ dq +:+ "Stin" +:+ dq +:+ " Milne"
   /\ Contact.email (contact DATA) = "stemil23@gmail.com"
   /\ Contact.tel (contact DATA) = "+610490100028"
   /\ List.map fst (Contact.social (contact DATA)) = ["GitHub"; "LinkedIn"; "email"]
   /\ List.length (skills DATA) = 18%nat
   /\ firstn 3 (skills DATA) = ["React"; "Next.js"; "Typescript"]
   /\ List.map Work.company (work DATA)
      = [ "Metabureau"; "Miscellaneous Freelance"; "Integrativ"; "REOP Ventures"; "IE";
          "MRG Metals"; "Indoor Air Quality"; "iSelect"; "Ericsson Australia"; "AOT Travel";
          "AXA Australia" ]
   /\ List.map Project.title (projects DATA) = ["Chat Collect"; "Magic UI"]
   /\ List.map Hackathon.title (hackathons DATA) = ["Hack Western 5"; "Hack The North"])
  /\ (forall data, occurs_in (name data) (rendered_output (ResumePage data)) = true)
  /\ occurs_in (name DATA) (rendered_output HomePage) = true
  /\ components_of HomePage = [].
Proof.
  split; [repeat split |].
  split; [exact ResumePage_shows_the_name |].
  split; [exact (ResumePage_shows_the_name DATA) | vm_compute; reflexivity].
Qed.

(** The docs pages arrange components of the shared package and read no
    profile data: they do not import [DATA]. *)
Example docs_pages_do_not_import_DATA :
  Forall (fun page => ~ In "DATA" (List.map fst (DocsApp.imports page))) DocsApp.pages.
Proof. repeat constructor; simpl; intuition discriminate. Qed.

End SiteConfiguration.

(** ** The prose documents *)

Section ContentDocuments.
Import Content.

(** A property computed for every document holds of each of them. *)
Lemma each_document (check : Document -> bool) :
  forallb check documents = true -> forall d, In d documents -> check d = true.
Proof. intros Hall d Hd. exact (proj1 (forallb_forall check documents) Hall d Hd). Qed.

(** C2 as stated fails: the article on EdgeDB's native AI begins with its
    title line, not with a front-matter block, and the front matter of the
    article on forking a remote has no [published] field. *)
Lemma front_matter_is_not_everywhere :
  ~ (forall d, In d documents -> complete_front_matter d = true).
Proof.
  intros Hall.
  assert (Hin : In unlocking_edgedb_native_ai documents) by (right; left; reflexivity).
  specialize (Hall _ Hin). vm_compute in Hall. discriminate Hall.
Qed.

Example fork_article_has_no_published_field :
  has_front_matter safely_fork_a_remote = true
  /\ complete_front_matter safely_fork_a_remote = false.
Proof. split; vm_compute; reflexivity. Qed.

(** C2, amended: every document that begins with a front-matter block has
    the fields [title], [publishedAt] and [summary] in it, and its
    [published] field, where it has one, is a boolean; five of the ten
    documents begin with such a block. *)
Theorem front_matter_fields (d : Document) :
  In d documents ->
  (forall fields body, front_matter d = Some (fields, body) ->
     present (field "title" fields) = true
     /\ present (field "publishedAt" fields) = true
     /\ present (field "summary" fields) = true
     /\ (field "published" fields = None
         \/ field "published" fields = Some "true"
         \/ field "published" fields = Some "false"))
  /\ List.filter has_front_matter documents
     = [ design_systems_turborepo; natural_language_query_interface;
         improved_data_approach; design_system_strategy; safely_fork_a_remote ].
Proof.
  intros Hd. split; [| vm_compute; reflexivity].
  intros fields body Hfm.
  assert (Hcheck : front_matter_as_written d = true).
  { apply each_document; [vm_compute; reflexivity | exact Hd]. }
  unfold front_matter_as_written in Hcheck. rewrite Hfm in Hcheck.
  apply andb_prop in Hcheck as [Hcheck Hpublished].
  apply andb_prop in Hcheck as [Hcheck Hsummary].
  apply andb_prop in Hcheck as [Htitle HpublishedAt].
  repeat split; try assumption.
  destruct (field "published" fields) as [value |]; [| now left].
  right. unfold is_boolean in Hpublished.
  apply orb_prop in Hpublished as [H | H]; apply String.eqb_eq in H; subst; auto.
Qed.

Lemma front_matter_fields_witness :
  present (field "title" (fst (split_at_delimiter (tl (opening safely_fork_a_remote))))) = true
  /\ field "published" (fst (split_at_delimiter (tl (opening safely_fork_a_remote)))) = None.
Proof.
  assert (Hin : In safely_fork_a_remote documents) by (do 8 right; left; reflexivity).
  destruct (front_matter_fields safely_fork_a_remote Hin) as [Hfields _].
  destruct (Hfields (fst (split_at_delimiter (tl (opening safely_fork_a_remote))))
                    (snd (split_at_delimiter (tl (opening safely_fork_a_remote))))
                    eq_refl) as [Htitle _].
  split; [exact Htitle | reflexivity].
Defined.

(** C5: every post of the repository has a title and a body.  Of each of
    the seven posts (the five documents with front matter and the two
    articles without it in the content directory), the title is the
    [title] field of its front matter or the line it opens with, and some
    line below the title holds text. *)
Theorem posts_have_a_title_and_a_body (d : Document) :
  In d documents ->
  is_post d = true ->
  has_title d = true /\ has_body d = true.
Proof.
  intros Hd Hpost.
  assert (Hcheck : (negb (is_post d) || (has_title d && has_body d)) = true).
  { apply (each_document (fun d => negb (is_post d) || (has_title d && has_body d)));
      [vm_compute; reflexivity | exact Hd]. }
  rewrite Hpost in Hcheck. simpl in Hcheck. now apply andb_prop in Hcheck.
Qed.

Lemma posts_have_a_title_and_a_body_witness :
  has_title unlocking_edgedb_native_ai = true
  /\ has_body unlocking_edgedb_native_ai = true.
Proof.
  apply (posts_have_a_title_and_a_body unlocking_edgedb_native_ai).
  - right; left; reflexivity.
  - vm_compute; reflexivity.
Defined.

Example the_posts :
  List.filter is_post documents
  = [ design_systems_turborepo; unlocking_edgedb_native_ai; final_predictive_maintenance;
      natural_language_query_interface; improved_data_approach;
      design_system_strategy; safely_fork_a_remote ].
Proof. vm_compute. reflexivity. Qed.

(** Every prose document has text below its opening, post or not; the two
    that are no posts and open with a paragraph have no title line. *)
Example documents_have_a_body :
  forallb has_body documents = true
  /\ List.filter (fun d => negb (has_title d)) documents
     = [architecture_review; autocomplete_architecture].
Proof. split; vm_compute; reflexivity. Qed.

End ContentDocuments.

(** ** The autocomplete article: writes, cache sync and the route *)

Section AutocompleteSyncFacts.
Import Js Autocomplete AutocompleteSync.

Variable World : Type.
Variable fetch : string -> Text -> World -> completion Response * World.
Variable d2_query : Value -> World -> completion Value * World.
Variable client_execute : string -> list (string * Value) -> World -> completion unit * World.

(** The stores after [syncUserToCaches(name, email)]. *)
Lemma syncUserToCaches_state (name email : string) (s : Env * World) :
  syncUserToCaches World name email s
  = (Normal tt,
     ({| KV_NAMESPACE :=
           <[name := {| value := JsonText (JObject [("name", JString name);
                                                    ("email", JString email)]);
                        expirationTtl := Some 60%Z |}]> (KV_NAMESPACE (fst s));
         DURABLE_OBJECT :=
           <[name := Object [("name", Str name); ("email", Str email)]]>
             (DURABLE_OBJECT (fst s)) |},
      snd s)).
Proof. reflexivity. Qed.

(** A request either finds a truthy entry in KV, or is the fallback. *)
Lemma handle_is_hit_or_fallback (query : string) (s : Env * World) :
  (exists entry, KV_NAMESPACE (fst s) !! query = Some entry
                 /\ truthy_text (value entry) = true
                 /\ handleAutocompleteRequest World fetch d2_query query s
                    = (JSON_parse (value entry), s))
  \/ handleAutocompleteRequest World fetch d2_query query s
     = fallback_to_D2 World fetch d2_query query s.
Proof.
  destruct (KV_NAMESPACE (fst s) !! query) as [entry |] eqn:Hget.
  - destruct (truthy_text (value entry)) eqn:Htruthy.
    + left. exists entry. repeat split; try assumption. now apply handle_hit.
    + right. apply handle_miss. intros entry' Hentry'. congruence.
  - right. apply handle_miss. intros entry' Hentry'. congruence.
Qed.

(** X1: for a name KV accepts as a key, after
    [syncUserToCaches(name, email)] a request for [name] is answered with
    the object { name, email } from KV: neither the stores nor the
    services outside are touched by it. *)
Theorem synced_user_is_served_from_kv (name email : string) (s : Env * World) :
  kv_accepts name = true ->
  let s1 := snd (syncUserToCaches World name email s) in
  handleAutocompleteRequest World fetch d2_query name s1
  = (Normal (Object [("name", Str name); ("email", Str email)]), s1).
Proof.
  intros _. rewrite syncUserToCaches_state. simpl.
  rewrite (handle_hit World fetch d2_query name _
             {| value := JsonText (JObject [("name", JString name); ("email", JString email)]);
                expirationTtl := Some 60%Z |}).
  - reflexivity.
  - apply lookup_insert_eq.
  - reflexivity.
Qed.

(** X2: [addUser] writes to EdgeDB first, for a name KV accepts as a key.
    When the statement succeeds the user is synced to both stores and the
    next request for [name] answers with it; when the statement is
    rejected, [addUser] rejects with the same error and both stores are as
    they were. *)
Theorem addUser_writes_through (name email : string) (s : Env * World) :
  kv_accepts name = true ->
  (forall w', client_execute "INSERT User { name := <str>$name, email := <str>$email }"
                [("name", Str name); ("email", Str email)] (snd s) = (Normal tt, w') ->
     exists s1,
       addUser World client_execute name email s = (Normal tt, s1)
       /\ snd s1 = w'
       /\ DURABLE_OBJECT (fst s1) !! name
          = Some (Object [("name", Str name); ("email", Str email)])
       /\ handleAutocompleteRequest World fetch d2_query name s1
          = (Normal (Object [("name", Str name); ("email", Str email)]), s1))
  /\ (forall e w', client_execute "INSERT User { name := <str>$name, email := <str>$email }"
                     [("name", Str name); ("email", Str email)] (snd s) = (Throw e, w') ->
        addUser World client_execute name email s = (Throw e, (fst s, w'))).
Proof.
  intros _. split.
  - intros w' Hexec. unfold addUser, await, outside. rewrite Hexec.
    rewrite syncUserToCaches_state. simpl.
    eexists. split; [reflexivity |]. split; [reflexivity |]. split.
    + simpl. apply lookup_insert_eq.
    + rewrite (handle_hit World fetch d2_query name _
                 {| value := JsonText (JObject [("name", JString name);
                                                ("email", JString email)]);
                    expirationTtl := Some 60%Z |}).
      * reflexivity.
      * apply lookup_insert_eq.
      * reflexivity.
  - intros e w' Hexec. unfold addUser, await, outside. rewrite Hexec. reflexivity.
Qed.

(** X3: [removeUserFromCaches] undoes [syncUserToCaches]: for a name that
    KV accepts as a key and that neither store held before, removing it
    after the sync gives back the very state before the sync. *)
Theorem removeUserFromCaches_undoes_sync (name email : string) (s : Env * World) :
  kv_accepts name = true ->
  KV_NAMESPACE (fst s) !! name = None ->
  DURABLE_OBJECT (fst s) !! name = None ->
  removeUserFromCaches World name (snd (syncUserToCaches World name email s))
  = (Normal tt, s).
Proof.
  intros _ Hkv Hd2. rewrite syncUserToCaches_state.
  unfold removeUserFromCaches, await, d2_delete, kv_delete, ret. simpl.
  rewrite !delete_insert_id by assumption.
  destruct s as [[kv d2] w]. reflexivity.
Qed.

(** What the fallback leaves of the entries of other keys. *)
Lemma fallback_frame (query key : string) (s : Env * World) :
  key <> query ->
  KV_NAMESPACE (fst (snd (fallback_to_D2 World fetch d2_query query s))) !! key
  = KV_NAMESPACE (fst s) !! key
  /\ DURABLE_OBJECT (fst (snd (fallback_to_D2 World fetch d2_query query s))) !! key
     = DURABLE_OBJECT (fst s) !! key.
Proof.
  intros Hne. unfold fallback_to_D2, await, d2_get, kv_put, ret. simpl.
  destruct (negb (truthy (default Undefined (DURABLE_OBJECT (fst s) !! query)))).
  - unfold performNLPToSQLConversion, await, outside, throw, lift.
    destruct (fetch _ _ (snd s)) as [[response | e] w]; simpl; [| split; reflexivity].
    destruct (negb (ok response)); simpl; [split; reflexivity |].
    destruct (json response) as [data | e]; simpl; [| split; reflexivity].
    destruct (get_property data "sqlQuery") as [sql | e]; simpl; [| split; reflexivity].
    unfold executeSQLQueryOnD2, await, outside, d2_put, ret. simpl.
    destruct (d2_query sql w) as [[results | e] w']; simpl; [| split; reflexivity].
    split; rewrite lookup_insert_ne by congruence; reflexivity.
  - simpl. split; [rewrite lookup_insert_ne by congruence |]; reflexivity.
Qed.

(** X4: a request writes under its own key only: whatever its outcome, the
    entries of KV and of the durable object under every other key are as
    they were. *)
Theorem handleAutocompleteRequest_frame (query key : string) (s : Env * World) :
  key <> query ->
  KV_NAMESPACE (fst (snd (handleAutocompleteRequest World fetch d2_query query s))) !! key
  = KV_NAMESPACE (fst s) !! key
  /\ DURABLE_OBJECT (fst (snd (handleAutocompleteRequest World fetch d2_query query s))) !! key
     = DURABLE_OBJECT (fst s) !! key.
Proof.
  intros Hne.
  destruct (handle_is_hit_or_fallback query s) as [[entry [_ [_ ->]]] | ->].
  - simpl. split; reflexivity.
  - now apply fallback_frame.
Qed.

(** The conversion leaves the stores alone. *)
Lemma performNLPToSQLConversion_stores (query : string) (s : Env * World) :
  fst (snd (performNLPToSQLConversion World fetch query s)) = fst s.
Proof.
  unfold performNLPToSQLConversion, await, outside, throw, lift.
  destruct (fetch _ _ (snd s)) as [[response | e] w]; simpl; [| reflexivity].
  destruct (negb (ok response)); simpl; [reflexivity |].
  destruct (json response) as [data | e]; reflexivity.
Qed.

(** X5: a request that fails before its first put has written nothing.
    For a key KV accepts: when the KV entry is truthy and [JSON.parse]
    throws on it, or when there is no truthy KV entry, the durable object
    holds no truthy value and the conversion or the SQL query is rejected,
    the request is rejected with that very error, and KV and the durable
    object are as they were before the call. *)
Theorem request_failing_before_the_puts_leaves_the_stores
    (query : string) (s : Env * World) (e : Exception) :
  kv_accepts query = true ->
  (exists entry, KV_NAMESPACE (fst s) !! query = Some entry
                 /\ truthy_text (value entry) = true
                 /\ JSON_parse (value entry) = Throw e)
  \/ ((forall entry, KV_NAMESPACE (fst s) !! query = Some entry ->
                     truthy_text (value entry) = false)
      /\ truthy (default Undefined (DURABLE_OBJECT (fst s) !! query)) = false
      /\ (fst (performNLPToSQLConversion World fetch query s) = Throw e
          \/ exists sql s1,
               performNLPToSQLConversion World fetch query s = (Normal sql, s1)
               /\ fst (executeSQLQueryOnD2 World d2_query sql s1) = Throw e)) ->
  exists w', handleAutocompleteRequest World fetch d2_query query s = (Throw e, (fst s, w')).
Proof.
  intros _ [(entry & Hget & Htruthy & Hparse) | (Hmiss & Hfalsy & Hfails)].
  - exists (snd s). rewrite (handle_hit World fetch d2_query query s entry Hget Htruthy).
    rewrite Hparse. now destruct s.
  - rewrite handle_miss by assumption.
    unfold fallback_to_D2, await, d2_get. simpl. rewrite Hfalsy. simpl.
    pose proof (performNLPToSQLConversion_stores query s) as Hstores.
    destruct Hfails as [Hnlp | (sql & s1 & Hnlp & Hsql)].
    + destruct (performNLPToSQLConversion World fetch query s) as [[sql | e'] [env1 w1]].
      * discriminate Hnlp.
      * simpl in Hnlp, Hstores. injection Hnlp as ->. subst env1. now exists w1.
    + rewrite Hnlp in *. simpl in Hstores.
      revert Hsql. unfold executeSQLQueryOnD2, await, outside, ret.
      destruct (d2_query sql (snd s1)) as [[results | e'] w']; simpl; [discriminate |].
      intros [= ->]. exists w'. now rewrite Hstores.
Qed.

(** X6: a falsy value stored in the durable object (null, false, 0, NaN,
    the empty string) counts as not found: with no truthy KV entry, the
    request has the outcome it would have with the key deleted from the
    durable object, and, when it resolves, leaves the same state. *)
Theorem falsy_stored_value_counts_as_missing
    (query : string) (env : Env) (w : World) (v : Value) :
  (forall entry, KV_NAMESPACE env !! query = Some entry -> truthy_text (value entry) = false) ->
  DURABLE_OBJECT env !! query = Some v ->
  truthy v = false ->
  fst (handleAutocompleteRequest World fetch d2_query query (env, w))
  = fst (handleAutocompleteRequest World fetch d2_query query
           ({| KV_NAMESPACE := KV_NAMESPACE env;
               DURABLE_OBJECT := delete query (DURABLE_OBJECT env) |}, w))
  /\ (returns (fst (handleAutocompleteRequest World fetch d2_query query (env, w))) = true ->
      handleAutocompleteRequest World fetch d2_query query (env, w)
      = handleAutocompleteRequest World fetch d2_query query
          ({| KV_NAMESPACE := KV_NAMESPACE env;
              DURABLE_OBJECT := delete query (DURABLE_OBJECT env) |}, w)).
Proof.
  intros Hkv Hd2 Hfalsy.
  set (without := {| KV_NAMESPACE := KV_NAMESPACE env;
                     DURABLE_OBJECT := delete query (DURABLE_OBJECT env) |}).
  rewrite !handle_miss by (simpl; assumption).
  unfold fallback_to_D2, await, d2_get, kv_put, ret. simpl.
  rewrite Hd2, lookup_delete_eq. simpl. rewrite Hfalsy. simpl.
  destruct (performNLPToSQLConversion World fetch query (env, w)) as [[sql | e] s1] eqn:Hnlp.
  - assert (Hnlp' : performNLPToSQLConversion World fetch query (without, w)
                    = (Normal sql, (without, snd s1)) /\ fst s1 = env).
    { revert Hnlp. unfold performNLPToSQLConversion, await, outside, throw, lift. simpl.
      destruct (fetch _ _ w) as [[response | e] w1]; simpl; [| discriminate].
      destruct (negb (ok response)); simpl; [discriminate |].
      destruct (json response) as [data | e]; simpl; [| discriminate].
      destruct (get_property data "sqlQuery") as [sql' | e]; simpl; [| discriminate].
      intros [= <- <-]. split; reflexivity. }
    destruct Hnlp' as [-> Henv]. destruct s1 as [env1 w1]. simpl in Henv. subst env1.
    unfold executeSQLQueryOnD2, await, outside, d2_put, ret. simpl.
    destruct (d2_query sql w1) as [[results | e] w2]; simpl.
    + split; [reflexivity |]. intros _. unfold without. simpl.
      now rewrite insert_delete_eq.
    + split; [reflexivity | discriminate].
  - assert (Hnlp' : fst (performNLPToSQLConversion World fetch query (without, w)) = Throw e).
    { revert Hnlp. unfold performNLPToSQLConversion, await, outside, throw, lift. simpl.
      destruct (fetch _ _ w) as [[response | e1] w1]; simpl; [| now intros [= <- _]].
      destruct (negb (ok response)); simpl; [now intros [= <- _] |].
      destruct (json response) as [data | e1]; simpl; [| now intros [= <- _]].
      destruct (get_property data "sqlQuery") as [sql' | e1]; simpl;
        [discriminate | now intros [= <- _]]. }
    destruct (performNLPToSQLConversion World fetch query (without, w)) as [[sql | e'] s2];
      simpl in Hnlp'; [discriminate |].
    injection Hnlp' as ->. split; [reflexivity | discriminate].
Qed.

(** [JSON.stringify] has no result exactly on [undefined]. *)
Lemma serialize_None (v : Value) : serialize v = None <-> v = Undefined.
Proof. destruct v as [ | | b | [z | | |] | s | items | members]; simpl; split; congruence. Qed.

(** The keys of the members that have a JSON form are among the keys of
    the object, in the same order. *)
Lemma serialized_keys_sublist (members : list (string * Value)) :
  sublist (List.map fst (omap (fun member => match serialize (snd member) with
                                             | Some j => Some (fst member, j)
                                             | None => None
                                             end) members))
          (List.map fst members).
Proof.
  induction members as [| [k x] rest IH]; simpl; [constructor |].
  destruct (serialize x); simpl; [now apply sublist_skip | now apply sublist_cons].
Qed.

Lemma reserialize_members (js : list (string * Json)) :
  Forall (fun kj => serialize (revive (snd kj)) = Some (snd kj)) js ->
  omap (fun member => match serialize (snd member) with
                      | Some j => Some (fst member, j)
                      | None => None
                      end)
       (List.map (fun member => (fst member, revive (snd member))) js)
  = js.
Proof.
  induction 1 as [| [k jx] rest Hk _ IHrest]; [reflexivity |].
  cbn [List.map omap list_omap fst snd] in *. rewrite Hk. cbn [fst snd]. now f_equal.
Qed.

(** A text written by [JSON.stringify] is written again unchanged after a
    [JSON.parse], also where the value itself is not what was parsed. *)
Lemma serialize_revive (v : Value) :
  unique_keys v = true ->
  forall j, serialize v = Some j -> serialize (revive j) = Some j.
Proof.
  induction v as [ | | b | n | s | items IH | members IH] using Value_nested_ind;
    simpl; intros Hu j Hj.
  - discriminate.
  - now injection Hj as <-.
  - now injection Hj as <-.
  - destruct n; injection Hj as <-; reflexivity.
  - now injection Hj as <-.
  - injection Hj as <-. simpl. do 2 f_equal.
    rewrite !List.map_map.
    induction IH as [| x xs Hx _ IHxs]; simpl in *; [reflexivity |].
    apply andb_prop in Hu as [Hux Huxs]. f_equal; [| now apply IHxs].
    destruct (serialize x) as [jx |] eqn:Hsx; simpl.
    + now rewrite (Hx Hux jx eq_refl).
    + reflexivity.
  - injection Hj as <-.
    apply andb_prop in Hu as [Hu Hnd]. apply bool_decide_eq_true in Hnd.
    pose proof (serialized_keys_sublist members) as Hsub.
    set (js := omap (fun member => match serialize (snd member) with
                                   | Some j => Some (fst member, j)
                                   | None => None
                                   end) members) in *.
    assert (Hndjs : NoDup (List.map fst js)) by (eapply sublist_NoDup; eassumption).
    simpl. fold js. rewrite build_object_fresh by (simpl; exact Hndjs).
    simpl. do 2 f_equal.
    assert (Heach : Forall (fun kj => serialize (revive (snd kj)) = Some (snd kj)) js).
    { subst js. clear Hnd Hsub Hndjs.
      induction IH as [| [k x] ms Hx _ IHms]; simpl in *; [constructor |].
      apply andb_prop in Hu as [Hux Hums].
      destruct (serialize x) as [jx |] eqn:Hsx; simpl.
      - constructor; [simpl; now apply Hx | now apply IHms].
      - now apply IHms. }
    now apply reserialize_members.
Qed.

Lemma route_of_handler (query : string) (s s1 : Env * World) (r : Value) :
  handleAutocompleteRequest World fetch d2_query query s = (Normal r, s1) ->
  autocomplete_route World fetch d2_query query s = (Normal (c_json r), s1).
Proof. intros H. unfold autocomplete_route, await. now rewrite H. Qed.

(** X7: the route answers a repeated request with the same response.  When
    the handler resolves with a value other than [undefined] (no object of
    it with a key twice), the route answers 200 with the JSON text of that
    value, and a second request with the same body, made in the state the
    first one left, gets the same status and the same body from KV, also
    where the values the handler returns differ (NaN against null). *)
Theorem route_repeats_its_answer (query : string) (s s1 : Env * World) (r1 : Value) :
  handleAutocompleteRequest World fetch d2_query query s = (Normal r1, s1) ->
  r1 <> Undefined ->
  unique_keys r1 = true ->
  autocomplete_route World fetch d2_query query s = (Normal (c_json r1), s1)
  /\ autocomplete_route World fetch d2_query query s1 = (Normal (c_json r1), s1).
Proof.
  intros Hfirst Hdef Hkeys.
  split; [now apply route_of_handler |].
  destruct (handle_is_hit_or_fallback query s) as [[entry [Hget [Htruthy Hhit]]] | Hmiss].
  - rewrite Hhit in Hfirst. injection Hfirst as Hparse <-.
    apply route_of_handler. now rewrite Hhit, Hparse.
  - rewrite Hmiss in Hfirst.
    pose proof (fallback_caches World fetch d2_query query s s1 r1 Hfirst) as Hkv.
    destruct (serialize r1) as [j |] eqn:Hser; [| now apply serialize_None in Hser].
    unfold JSON_stringify in Hkv. rewrite Hser in Hkv. simpl in Hkv.
    pose proof (handle_hit World fetch d2_query query s1 _ Hkv eq_refl) as Hhit.
    simpl in Hhit.
    rewrite (route_of_handler query s1 s1 (revive j) Hhit).
    unfold c_json, JSON_stringify.
    now rewrite (serialize_revive r1 Hkeys j Hser), Hser.
Qed.

End AutocompleteSyncFacts.

Section AutocompleteSyncExamples.
Import Js Autocomplete AutocompleteSync Samples MoreSamples.

(** A request for "al" after the sync of the user. *)
Lemma synced_user_is_served_from_kv_witness :
  handleAutocompleteRequest nat fetch d2_query "al"
    (snd (syncUserToCaches nat "al" "al@example.com" (env_with_bo, 0%nat)))
  = (Normal (Object [("name", Str "al"); ("email", Str "al@example.com")]),
     snd (syncUserToCaches nat "al" "al@example.com" (env_with_bo, 0%nat))).
Proof.
  apply (synced_user_is_served_from_kv nat fetch d2_query "al" "al@example.com"
           (env_with_bo, 0%nat)).
  reflexivity.
Defined.

(** A user added is served by the next request for the name. *)
Lemma addUser_writes_through_witness :
  exists s1,
    addUser nat execute_ok "al" "al@example.com" (env_with_bo, 0%nat) = (Normal tt, s1)
    /\ handleAutocompleteRequest nat fetch d2_query "al" s1
       = (Normal (Object [("name", Str "al"); ("email", Str "al@example.com")]), s1).
Proof.
  destruct (proj1 (addUser_writes_through nat fetch d2_query execute_ok "al" "al@example.com"
                     (env_with_bo, 0%nat) eq_refl) 1%nat eq_refl)
    as (s1 & Hadd & _ & _ & Hserved).
  exists s1. split; assumption.
Defined.

Lemma removeUserFromCaches_undoes_sync_witness :
  removeUserFromCaches nat "al"
    (snd (syncUserToCaches nat "al" "al@example.com" (env_with_bo, 0%nat)))
  = (Normal tt, (env_with_bo, 0%nat)).
Proof.
  apply (removeUserFromCaches_undoes_sync nat "al" "al@example.com" (env_with_bo, 0%nat));
    vm_compute; reflexivity.
Defined.

(** A first request for "al" leaves the entries under "bo" alone. *)
Lemma handleAutocompleteRequest_frame_witness :
  KV_NAMESPACE (fst (snd (handleAutocompleteRequest nat fetch d2_query "al"
                            (env_with_bo, 0%nat)))) !! "bo"
  = KV_NAMESPACE env_with_bo !! "bo"
  /\ DURABLE_OBJECT (fst (snd (handleAutocompleteRequest nat fetch d2_query "al"
                                 (env_with_bo, 0%nat)))) !! "bo"
     = DURABLE_OBJECT env_with_bo !! "bo".
Proof.
  apply (handleAutocompleteRequest_frame nat fetch d2_query "al" "bo" (env_with_bo, 0%nat)).
  discriminate.
Defined.

(** With the conversion endpoint down, the request is rejected and the
    stores stay empty. *)
Lemma request_failing_before_the_puts_leaves_the_stores_witness :
  exists calls,
    handleAutocompleteRequest nat fetch_unavailable d2_query "al" (empty_env, 0%nat)
    = (Throw (Error "Failed to convert query: Service Unavailable"), (empty_env, calls)).
Proof.
  apply (request_failing_before_the_puts_leaves_the_stores nat fetch_unavailable d2_query
           "al" (empty_env, 0%nat)).
  - reflexivity.
  - right. split; [| split].
    + intros entry Hentry. vm_compute in Hentry. discriminate Hentry.
    + reflexivity.
    + left. reflexivity.
Defined.

(** The stored 0 is not served: the rows of the SQL query are. *)
Lemma falsy_stored_value_counts_as_missing_witness :
  fst (handleAutocompleteRequest nat fetch d2_query "al" (env_with_zero, 0%nat))
  = fst (handleAutocompleteRequest nat fetch d2_query "al"
           ({| KV_NAMESPACE := KV_NAMESPACE env_with_zero;
               DURABLE_OBJECT := delete "al" (DURABLE_OBJECT env_with_zero) |}, 0%nat)).
Proof.
  refine (proj1 (falsy_stored_value_counts_as_missing nat fetch d2_query "al"
                   env_with_zero 0%nat (Num (Finite 0)) _ _ _)).
  - intros entry Hentry. vm_compute in Hentry. discriminate Hentry.
  - vm_compute. reflexivity.
  - reflexivity.
Defined.

Example stored_zero_is_replaced :
  fst (handleAutocompleteRequest nat fetch d2_query "al" (env_with_zero, 0%nat)) = Normal rows.
Proof. vm_compute. reflexivity. Qed.

(** With [NaN] in the durable object the handler returns different values
    to two requests, and the route the same body, the text of [null] in an
    array. *)
Lemma route_repeats_its_answer_witness :
  autocomplete_route nat fetch d2_query "al" (env_with_NaN, 0%nat)
  = (Normal {| status := 200; body := Some (JsonText (JArray [JNull])) |},
     snd (handleAutocompleteRequest nat fetch d2_query "al" (env_with_NaN, 0%nat)))
  /\ autocomplete_route nat fetch d2_query "al"
       (snd (handleAutocompleteRequest nat fetch d2_query "al" (env_with_NaN, 0%nat)))
     = (Normal {| status := 200; body := Some (JsonText (JArray [JNull])) |},
        snd (handleAutocompleteRequest nat fetch d2_query "al" (env_with_NaN, 0%nat))).
Proof.
  refine (route_repeats_its_answer nat fetch d2_query "al" (env_with_NaN, 0%nat)
            (snd (handleAutocompleteRequest nat fetch d2_query "al" (env_with_NaN, 0%nat)))
            (Array [Num NaN]) _ _ _).
  - vm_compute. reflexivity.
  - discriminate.
  - reflexivity.
Defined.

End AutocompleteSyncExamples.

(** ** Dynamic selection: the clicks of visitors *)

Section TrackedClicks.
Import Js Jsx EdgeDB TrackClickRoute DynamicCTA.

(** The body [trackClick] sends is read back by the route as the version. *)
Lemma read_version_trackClick (version : ButtonVersion) :
  read_version (trackClick version) = Normal (Str version).
Proof. reflexivity. Qed.

(** The route on a click, with the server up. *)
Lemma POST_trackClick (version : ButtonVersion) (db : Database) (console : Console) :
  reachable db = true ->
  POST insert_ButtonClick (trackClick version) db console
  = (Normal click_tracked,
     {| ButtonClicks := ButtonClicks db ++ [{| EdgeDB.version := version;
                                               timestamp := clock db |}];
        clock := clock db;
        reachable := true |},
     console).
Proof.
  intros Hdb. unfold POST. rewrite read_version_trackClick. simpl. now rewrite Hdb.
Qed.

Lemma count_version_after_insert (name version : string) (db : Database) (t : Z) (r : bool) :
  count_version name
    {| ButtonClicks := ButtonClicks db ++ [{| EdgeDB.version := version; timestamp := t |}];
       clock := clock db; reachable := r |}
  = (count_version name db + (if String.eqb version name then 1 else 0))%nat.
Proof.
  unfold count_version. simpl. rewrite List.filter_app, List.length_app. simpl.
  destruct (String.eqb version name); reflexivity.
Qed.

(** X8: a click on the button of a version is counted once and for that
    version only.  With the server up, the request [trackClick(version)]
    sends makes the route answer 200 'Click tracked' and store one
    ButtonClick of that version with the time of the server: the count of
    the version grows by one and the count of every other version stays. *)
Theorem tracked_click_counts_once (version : ButtonVersion) (db : Database) (console : Console) :
  reachable db = true ->
  exists db',
    POST insert_ButtonClick (trackClick version) db console = (Normal click_tracked, db', console)
    /\ ButtonClicks db'
       = ButtonClicks db ++ [{| EdgeDB.version := version; timestamp := clock db |}]
    /\ count_version version db' = S (count_version version db)
    /\ (forall other, other <> version -> count_version other db' = count_version other db).
Proof.
  intros Hdb. rewrite (POST_trackClick version db console Hdb).
  eexists. split; [reflexivity |]. split; [reflexivity |]. split.
  - rewrite count_version_after_insert, String.eqb_refl. lia.
  - intros other Hother. rewrite count_version_after_insert.
    destruct (String.eqb_spec version other); [congruence | lia].
Qed.

End TrackedClicks.

Section TrackedClicksExamples.
Import Js Jsx EdgeDB TrackClickRoute DynamicCTA Samples.

Lemma tracked_click_counts_once_witness :
  exists db',
    POST insert_ButtonClick (trackClick "A") one_each [] = (Normal click_tracked, db', [])
    /\ count_version "A" db' = 2%nat
    /\ count_version "B" db' = 1%nat.
Proof.
  destruct (tracked_click_counts_once "A" one_each [] eq_refl)
    as (db' & Hpost & _ & HA & Hother).
  exists db'. split; [exact Hpost |]. split.
  - rewrite HA. reflexivity.
  - rewrite (Hother "B") by discriminate. reflexivity.
Defined.

End TrackedClicksExamples.

(** ** The Storybook configuration: package directories and [webpackFinal] *)

Section PackageDirectory.
Import Js Storybook.

Lemma list_ascii_of_string_app (a b : string) :
  list_ascii_of_string (a +:+ b) = list_ascii_of_string a ++ list_ascii_of_string b.
Proof. induction a as [| c a IH]; simpl; [reflexivity | now rewrite IH]. Qed.

(** Scanning a file name without slash from its end, the loop of [dirname]
    stops at the slash before it. *)
Lemma dirname_end_file (dir file : list ascii) (matchedSlash : bool) (n : nat) :
  dir <> [] ->
  forallb (fun c => negb (is_slash c)) file = true ->
  (n <= List.length file)%nat ->
  (matchedSlash = false \/ (0 < n)%nat) ->
  dirname_end (dir ++ "/"%char :: file) (List.length dir + n) matchedSlash
  = Some (List.length dir).
Proof.
  intros Hdir Hfile. revert matchedSlash.
  induction n as [| n IH]; intros matchedSlash Hn Hm.
  - destruct Hm as [-> | Hm]; [| lia].
    rewrite Nat.add_0_r.
    destruct dir as [| c dir]; [congruence |]. simpl List.length.
    cbn [dirname_end].
    replace (nth (S (List.length dir)) ((c :: dir) ++ "/"%char :: file) "/"%char)
      with "/"%char.
    + reflexivity.
    + change (S (List.length dir)) with (List.length (c :: dir)).
      now rewrite List.nth_middle.
  - rewrite Nat.add_succ_r. cbn [dirname_end].
    assert (Hnth : is_slash (nth (S (List.length dir + n)) (dir ++ "/"%char :: file) "/"%char)
                   = false).
    { rewrite List.app_nth2 by lia.
      replace (S (List.length dir + n) - List.length dir)%nat with (S n) by lia. simpl.
      rewrite forallb_forall in Hfile.
      assert (Hlt : (n < List.length file)%nat) by lia.
      specialize (Hfile (nth n file "/"%char) (nth_In file "/"%char Hlt)).
      now apply negb_true_iff in Hfile. }
    rewrite Hnth. apply IH; [lia | now left].
Qed.

(** [dirname] of a file in a directory is the directory, the root apart. *)
Lemma dirname_of_file_in (dir file : string) :
  dir <> "" -> dir <> "/" ->
  file <> "" ->
  forallb (fun c => negb (is_slash c)) (list_ascii_of_string file) = true ->
  dirname (dir +:+ "/" +:+ file) = dir.
Proof.
  intros Hdir Hroot Hfile Hnoslash. unfold dirname.
  rewrite !list_ascii_of_string_app. simpl (list_ascii_of_string "/").
  set (d := list_ascii_of_string dir). set (f := list_ascii_of_string file).
  assert (Hd : d <> []).
  { subst d. destruct dir; [congruence | discriminate]. }
  assert (Hf : f <> []).
  { subst f. destruct file; [congruence | discriminate]. }
  destruct (d ++ ["/"%char] ++ f) as [| first rest] eqn:Hchars.
  { destruct d; [congruence | discriminate]. }
  rewrite <- Hchars. simpl ([_] ++ f).
  replace (List.length (d ++ "/"%char :: f) - 1)%nat with (List.length d + List.length f)%nat
    by (rewrite List.length_app; simpl; lia).
  rewrite dirname_end_file; try assumption; try lia.
  2:{ right. destruct f; [congruence | simpl; lia]. }
  assert (Htake : string_of_list_ascii (firstn (List.length d) (d ++ "/"%char :: f)) = dir).
  { rewrite List.firstn_app, Nat.sub_diag, List.firstn_all. simpl. rewrite app_nil_r.
    subst d. apply string_of_list_ascii_of_string. }
  destruct (is_slash first && (List.length d =? 1)%nat) eqn:Hcase; [| exact Htake].
  exfalso. apply andb_prop in Hcase as [Hfirst Hlen].
  apply Nat.eqb_eq in Hlen.
  destruct d as [| c [| c' d']] eqn:Hdeq; simpl in Hlen; try lia.
  simpl in Hchars. injection Hchars as <- _.
  unfold is_slash in Hfirst. apply Ascii.eqb_eq in Hfirst. subst c.
  apply Hroot. rewrite <- (string_of_list_ascii_of_string dir). fold d. now rewrite Hdeq.
Qed.

Variable require_resolve : string -> completion string.

(** X10: [getAbsolutePath] gives the directory of the package: when
    [require.resolve] finds the package.json of the package in a directory
    (any directory but the root), the result is exactly that directory. *)
Theorem getAbsolutePath_is_the_package_directory (value dir : string) :
  require_resolve (join value "package.json") = Normal (dir +:+ "/package.json") ->
  dir <> "" -> dir <> "/" ->
  getAbsolutePath require_resolve value = Normal dir.
Proof.
  intros Hresolve Hdir Hroot. unfold getAbsolutePath. rewrite Hresolve. simpl. f_equal.
  change (dir +:+ "/package.json") with (dir +:+ "/" +:+ "package.json").
  apply dirname_of_file_in; try assumption; [discriminate | reflexivity].
Qed.

End PackageDirectory.

Section WebpackFinalFacts.
Import Js WebpackFinal.

Variable __dirname : string.

(** X11: in a host with no global [path] (such is a Node module),
    [webpackFinal] never resolves with a configuration and never adds the
    TsconfigPathsPlugin.  Without [config.resolve] the call is rejected
    with a TypeError and the configuration is untouched.  With
    [config.resolve] it is rejected with ReferenceError 'path is not
    defined' after the first statement has run: [resolve.plugins] holds the
    list it held, or the empty list where it was undefined, and nothing
    else. *)
Theorem webpackFinal_rejects_before_the_push (config : WebpackConfig) :
  match resolve config with
  | None =>
      (exists message, fst (webpackFinal None __dirname config) = Throw (TypeError message))
      /\ snd (webpackFinal None __dirname config) = config
  | Some r =>
      webpackFinal None __dirname config
      = (Throw (ReferenceError "path is not defined"),
         {| resolve := Some {| plugins := Some (default [] (plugins r)) |} |})
  end.
Proof.
  unfold webpackFinal. destruct (resolve config) as [r |].
  - reflexivity.
  - split; [eexists |]; reflexivity.
Qed.

End WebpackFinalFacts.

Section StorybookMoreExamples.
Import Js Storybook WebpackFinal Samples MoreSamples.

Lemma getAbsolutePath_is_the_package_directory_witness :
  getAbsolutePath installed "@storybook/addon-links"
  = Normal "/repo/node_modules/@storybook/addon-links".
Proof.
  apply (getAbsolutePath_is_the_package_directory installed "@storybook/addon-links"
           "/repo/node_modules/@storybook/addon-links");
    [reflexivity | discriminate | discriminate].
Defined.

Example webpackFinal_on_a_configuration :
  webpackFinal None "/repo/apps/.storybook" webpack_config
  = (Throw (ReferenceError "path is not defined"), webpack_config).
Proof. reflexivity. Qed.

(** The one write of a rejected call: an undefined [resolve.plugins]
    becomes the empty list. *)
Example webpackFinal_on_undefined_plugins :
  webpackFinal None "/repo/apps/.storybook" {| resolve := Some {| plugins := None |} |}
  = (Throw (ReferenceError "path is not defined"),
     {| resolve := Some {| plugins := Some [] |} |}).
Proof. reflexivity. Qed.

End StorybookMoreExamples.

(** ** The article on EdgeDB, D2 and KV: users in the two stores *)

Section UserDataFacts.
Import Js UserData.

Variable World : Type.
Variable client_query : string -> list (string * Value) -> World -> completion (list Value) * World.
Variable ToString : Value -> string.

Lemma user_key_inj (a b : string) : "user:" +:+ a = "user:" +:+ b -> a = b.
Proof. simpl. intros Heq. now injection Heq. Qed.




(** X13: the three writers go to EdgeDB first: when the client rejects its
    queries, [createUser], [updateUser] and [deleteUser] reject with the
    error of the client and leave KV and the durable object as they
    were. *)
Theorem failed_write_leaves_the_stores (userId name email : string) (s : State World)
    (e : Exception) :
  (forall text args, exists w, client_query text args (world World s) = (Throw e, w)) ->
  (fst (createUser World client_query name email s) = Throw e
   /\ env World (snd (createUser World client_query name email s)) = env World s)
  /\ (fst (updateUser World client_query userId name email s) = Throw e
      /\ env World (snd (updateUser World client_query userId name email s)) = env World s)
  /\ (fst (deleteUser World client_query userId email s) = Throw e
      /\ env World (snd (deleteUser World client_query userId email s)) = env World s).
Proof.
  intros Hfail. unfold createUser, updateUser, deleteUser, await, query.
  repeat split;
    match goal with
    | |- context [client_query ?t ?a (world World ?s0)] =>
        destruct (Hfail t a) as [w ->]; reflexivity
    end.
Qed.


(** What the loop of [syncEdgeDBToD2] leaves alone. *)
Lemma put_users_frame (users : list Value) (s : State World) :
  KV_CACHE (env World (snd (put_users World ToString users s))) = KV_CACHE (env World s)
  /\ world World (snd (put_users World ToString users s)) = world World s
  /\ console World (snd (put_users World ToString users s)) = console World s.
Proof.
  revert s. induction users as [| u rest IH]; intros s; simpl; [auto |].
  unfold await, lift. destruct (get_property u "email") as [email | e]; simpl; [| auto].
  destruct (IH {| env := {| KV_CACHE := KV_CACHE (env World s);
                            DURABLE_OBJECT := <["user:" +:+ ToString email := u]>
                                                (DURABLE_OBJECT (env World s)) |};
                  world := world World s; console := console World s |}) as (H1 & H2 & H3).
  unfold d2_put, with_env. simpl. auto.
Qed.

(** X15: [syncEdgeDBToD2] never rejects and never touches KV: whatever the
    client and the rows do, it resolves; when the SELECT is rejected the
    durable object is as it was and the error is logged. *)
Theorem syncEdgeDBToD2_never_rejects (s : State World) :
  fst (syncEdgeDBToD2 World client_query ToString s) = Normal tt
  /\ KV_CACHE (env World (snd (syncEdgeDBToD2 World client_query ToString s)))
     = KV_CACHE (env World s)
  /\ (forall e w, client_query "SELECT User { name, email }" [] (world World s) = (Throw e, w) ->
        env World (snd (syncEdgeDBToD2 World client_query ToString s)) = env World s
        /\ console World (snd (syncEdgeDBToD2 World client_query ToString s))
           = console World s ++ [("Error syncing data from EdgeDB to D2:", e)]).
Proof.
  unfold syncEdgeDBToD2, await, query.
  destruct (client_query "SELECT User { name, email }" [] (world World s)) as [[users | e] w]
    eqn:Hq; simpl.
  - pose proof (put_users_frame users
                  {| env := env World s; world := w; console := console World s |})
      as (Hkv & _ & _).
    destruct (put_users World ToString users _) as [[[] | e] s']; simpl in *;
      (split; [reflexivity | split; [exact Hkv | discriminate]]).
  - split; [reflexivity | split; [reflexivity |]].
    intros e' w' [= <- <-]. split; reflexivity.
Qed.

Lemma put_users_cons (u : Value) (rest : list Value) (email : Value) (s : State World) :
  get_property u "email" = Normal email ->
  put_users World ToString (u :: rest) s
  = put_users World ToString rest (stored World ("user:" +:+ ToString email) u s).
Proof.
  intros Hget. cbn [put_users]. unfold await, lift. rewrite Hget. reflexivity.
Qed.

(** The loop stores every row under the key of its email, and writes under
    no other key. *)
Lemma put_users_stores (users : list Value) (emails : list string) (s : State World) :
  (forall e, ToString (Str e) = e) ->
  Forall2 (fun u e => row_email u = Some e) users emails ->
  fst (put_users World ToString users s) = Normal tt
  /\ (forall key, key ∉ (fun e => "user:" +:+ e) <$> emails ->
        DURABLE_OBJECT (env World (snd (put_users World ToString users s))) !! key
        = DURABLE_OBJECT (env World s) !! key)
  /\ (NoDup emails ->
      Forall2 (fun u e =>
                 DURABLE_OBJECT (env World (snd (put_users World ToString users s)))
                   !! ("user:" +:+ e) = Some u) users emails).
Proof.
  intros HToString Hrows. revert s.
  induction Hrows as [| u e users emails Hu _ IH]; intros s.
  - simpl. repeat split; auto.
  - assert (Hget : get_property u "email" = Normal (Str e)).
    { destruct u; try discriminate. simpl in *.
      destruct (lookup_member "email" members); try discriminate. now injection Hu as ->. }
    rewrite (put_users_cons u users (Str e) s Hget), HToString.
    destruct (IH (stored World ("user:" +:+ e) u s)) as (Hok & Hframe & Hstored).
    split; [exact Hok | split].
    + intros key Hkey. rewrite fmap_cons in Hkey. apply not_elem_of_cons in Hkey as [Hne Hkey].
      rewrite (Hframe key Hkey). simpl. now rewrite lookup_insert_ne.
    + intros Hnd. apply NoDup_cons in Hnd as [Hnotin Hnd].
      constructor; [| now apply Hstored].
      rewrite Hframe.
      * simpl. apply lookup_insert_eq.
      * intros Hin. apply list_elem_of_fmap in Hin as (e' & Heq & Hin).
        apply user_key_inj in Heq. now subst e'.
Qed.

(** X16: [syncEdgeDBToD2] copies every user into the durable object.  When
    the SELECT answers rows that are objects with a string email, no email
    twice, then after the call the durable object holds each row under
    user:email, its entries under all other keys are as they were, and
    nothing is logged. *)
Theorem syncEdgeDBToD2_stores_every_user (s : State World) (users : list Value)
    (emails : list string) (w : World) :
  (forall e, ToString (Str e) = e) ->
  client_query "SELECT User { name, email }" [] (world World s) = (Normal users, w) ->
  Forall2 (fun u e => row_email u = Some e) users emails ->
  NoDup emails ->
  Forall2 (fun u e =>
             DURABLE_OBJECT (env World (snd (syncEdgeDBToD2 World client_query ToString s)))
               !! ("user:" +:+ e) = Some u) users emails
  /\ (forall key, key ∉ (fun e => "user:" +:+ e) <$> emails ->
        DURABLE_OBJECT (env World (snd (syncEdgeDBToD2 World client_query ToString s))) !! key
        = DURABLE_OBJECT (env World s) !! key)
  /\ console World (snd (syncEdgeDBToD2 World client_query ToString s)) = console World s.
Proof.
  intros HToString Hq Hrows Hnd. unfold syncEdgeDBToD2, await, query. rewrite Hq. simpl.
  set (s0 := {| env := env World s; world := w; console := console World s |}).
  destruct (put_users_stores users emails s0 HToString Hrows) as (Hok & Hframe & Hstored).
  pose proof (put_users_frame users s0) as (_ & _ & Hconsole).
  destruct (put_users World ToString users s0) as [[[] | e] s']; simpl in *; [| discriminate].
  split; [now apply Hstored | split; [exact Hframe | exact Hconsole]].
Qed.

End UserDataFacts.

Section UserDataExamples.
Import Js UserData MoreSamples.


Lemma failed_write_leaves_the_stores_witness :
  fst (createUser nat query_down "Alice" "alice@example.com" no_users)
  = Throw (Error "ClientConnectionError")
  /\ env nat (snd (createUser nat query_down "Alice" "alice@example.com" no_users))
     = env nat no_users.
Proof.
  refine (proj1 (failed_write_leaves_the_stores nat query_down "u1" "Alice"
                   "alice@example.com" no_users (Error "ClientConnectionError") _)).
  intros text args. exists 1%nat. reflexivity.
Defined.


Lemma syncEdgeDBToD2_stores_every_user_witness :
  Forall2 (fun u e =>
             DURABLE_OBJECT (env nat (snd (syncEdgeDBToD2 nat query_two_users sample_ToString
                                             no_users)))
               !! ("user:" +:+ e) = Some u)
    [alice; bob] ["alice@example.com"; "bob@example.com"].
Proof.
  refine (proj1 (syncEdgeDBToD2_stores_every_user nat query_two_users sample_ToString no_users
                   [alice; bob] ["alice@example.com"; "bob@example.com"] 1%nat
                   _ eq_refl _ _)).
  - reflexivity.
  - repeat constructor.
  - apply NoDup_cons. split; [| apply NoDup_singleton].
    intros Hin. apply list_elem_of_singleton in Hin. discriminate Hin.
Defined.

(** A row that is [null] stops the loop: the error is logged, the rows
    before it stay stored, and the call still resolves. *)
Example syncEdgeDBToD2_on_a_null_row :
  let s' := snd (syncEdgeDBToD2 nat (fun _ _ calls => (Normal [alice; Null; bob], S calls))
                   sample_ToString no_users) in
  DURABLE_OBJECT (env nat s') !! "user:alice@example.com" = Some alice
  /\ DURABLE_OBJECT (env nat s') !! "user:bob@example.com" = None
  /\ console nat s'
     = [("Error syncing data from EdgeDB to D2:",
         TypeError "Cannot destructure property of null")].
Proof. vm_compute. repeat split. Qed.

End UserDataExamples.
